(** * Subscription lifecycle of the Vale o Vinho backend

    A shallow embedding of

      - [server/middleware/subscription.ts]  (entitlement queries),
      - [server/routers/subscription.ts]     (Stripe webhook reconciler and
                                              the user command surface),
      - the migration that creates [subscription_plans], [subscriptions]
        and [payment_history],

    followed by the properties of the subscription specification, each
    proved or refuted against the embedded code.

    Modelling conventions.

      - The handle [db : any] is a MySQL connection.  A call [db.query]
        either throws or returns the rows its statement denotes; which of
        the two happens is decided by a fault schedule carried by the
        world (one boolean per query, [true] = the query throws and the
        tables stay as they were).  An array is truthy in JavaScript, so
        the test [!rows || rows.length === 0] is the test for no rows.
      - The Stripe SDK is an oracle [Stripe.Api]: every call either
        throws or returns.
      - Columns of type TIMESTAMP hold seconds since the epoch; the clock
        of the world is in milliseconds, as [Date.now()] is.
      - [amount] is kept in cents ([amount_paid / 100] stored in a
        DECIMAL(10,2) column keeps exactly the cents).
      - The tables are declared with collation utf8mb4_unicode_ci: two
        strings are equal in a WHERE clause when the collation gives them
        the same weights.  The weights are left to the server
        ([collation]); every result holds for any choice of them.  A
        comparison with NULL selects nothing.
      - MySQL leaves open in which order rows with the same [created_at]
        come out of ORDER BY; the choice is left to the server as well
        ([tie_break], decided on the primary keys).
      - A provider status has the eight values of the SDK; the ENUM
        column takes five of them, and a statement that is to store
        another one is rejected by the server, which runs in its default
        strict mode. *)

From Stdlib Require Import ZArith List String Ascii Bool Lia.
Import ListNotations.

Local Open Scope string_scope.
Local Open Scope Z_scope.

(* ================================================================= *)
(** ** JavaScript values that the code lets escape *)

(** [hasActiveSubscription] returns the value of an [&&] chain whose
    operands are not all booleans, so its result is a boolean or [null]. *)
Inductive JsVal : Type :=
| JBool (b : bool)
| JNull.

Definition truthy (v : JsVal) : bool :=
  match v with
  | JBool b => b
  | JNull => false
  end.

(** [a && b]: the left operand when it is falsy, the right one otherwise. *)
Definition js_and (a b : JsVal) : JsVal :=
  if truthy a then b else a.

(** Truthiness of a [string | null | undefined]. *)
Definition truthy_str (s : option string) : bool :=
  match s with
  | Some s => negb (String.eqb s "")
  | None => false
  end.

(** [s || d] on strings. *)
Definition str_or (s : option string) (d : string) : string :=
  match s with
  | Some s => if String.eqb s "" then d else s
  | None => d
  end.

(** [n || d] on numbers: [0] is falsy. *)
Definition num_or (n : option Z) (d : Z) : Z :=
  match n with
  | Some n => if n =? 0 then d else n
  | None => d
  end.

Definition upper_ascii (c : ascii) : ascii :=
  let n := nat_of_ascii c in
  if (Nat.leb 97 n && Nat.leb n 122)%bool then ascii_of_nat (n - 32) else c.

Fixpoint toUpperCase (s : string) : string :=
  match s with
  | EmptyString => EmptyString
  | String c s' => String (upper_ascii c) (toUpperCase s')
  end.

(* ================================================================= *)
(** ** The status values of the provider *)

Module StripeStatus.

(** [Stripe.Subscription.Status]. *)
Inductive t : Type :=
| active | canceled | incomplete | incomplete_expired
| past_due | paused | trialing | unpaid.

End StripeStatus.

(* ================================================================= *)
(** ** The relational schema *)

Module Schema.

Inductive SubscriptionStatus : Type :=
| active | canceled | past_due | trialing | incomplete.

Inductive PaymentStatus : Type :=
| succeeded | pending | failed.

Definition status_eqb (a b : SubscriptionStatus) : bool :=
  match a, b with
  | active, active | canceled, canceled | past_due, past_due
  | trialing, trialing | incomplete, incomplete => true
  | _, _ => false
  end.

Record PlanRow : Type := mkPlan {
  plan_pk : Z;
  plan_name : string;
  plan_description : option string;
  price_monthly : Z;
  price_yearly : option Z
}.

Record SubscriptionRow : Type := mkSub {
  sub_pk : Z;
  user_id : string;
  plan_id : Z;
  stripe_customer_id : option string;
  stripe_subscription_id : option string;
  status : SubscriptionStatus;
  current_period_start : option Z;
  current_period_end : option Z;
  cancel_at_period_end : bool;
  trial_end : option Z;
  created_at : Z;
  updated_at : Z
}.

Record PaymentRow : Type := mkPay {
  pay_pk : Z;
  subscription_id : Z;
  stripe_payment_intent_id : option string;
  amount : Z;
  currency : string;
  pay_status : PaymentStatus;
  payment_method : string;
  paid_at : Z;
  pay_created_at : Z
}.

(** What the migration leaves to the MySQL server.  [collation] gives a
    string its weights under utf8mb4_unicode_ci, the collation of all
    three tables: two strings are equal for the server when their
    weights are.  [tie_break a b] says that, of two rows with equal sort
    key, the one with primary key [a] comes out of ORDER BY before the
    one with primary key [b]. *)
Record Server : Type := mkServer {
  collation : string -> string;
  tie_break : Z -> Z -> bool
}.

(** The server and the three tables, each AUTO_INCREMENT column with its
    counter.  The only keys are the primary keys;
    [stripe_subscription_id] and [stripe_payment_intent_id] carry a plain
    INDEX, not a UNIQUE one. *)
Record Db : Type := mkDb {
  server : Server;
  subscription_plans : list PlanRow;
  subscriptions : list SubscriptionRow;
  subscriptions_auto_increment : Z;
  payment_history : list PaymentRow;
  payment_history_auto_increment : Z
}.

End Schema.
Import Schema.

(* ================================================================= *)
(** ** The SQL statements the code issues *)

Module Sql.

(** [a = b] on two strings, under the collation of the tables. *)
Definition eq_text (d : Db) (a b : string) : bool :=
  String.eqb (collation (server d) a) (collation (server d) b).

(** [column = ?] for a nullable column and a possibly-null parameter. *)
Definition eq_param (d : Db) (column param : option string) : bool :=
  match column, param with
  | Some c, Some p => eq_text d c p
  | _, _ => false
  end.

(** Equality of a nullable column with a value, byte for byte. *)
Definition same_text (column : option string) (v : string) : bool :=
  match column with
  | Some c => String.eqb c v
  | None => false
  end.

(** The ENUM column [status] takes five of the provider's values. *)
Definition enum_status (st : StripeStatus.t) : option SubscriptionStatus :=
  match st with
  | StripeStatus.active => Some active
  | StripeStatus.canceled => Some canceled
  | StripeStatus.past_due => Some past_due
  | StripeStatus.trialing => Some trialing
  | StripeStatus.incomplete => Some incomplete
  | StripeStatus.incomplete_expired
  | StripeStatus.paused
  | StripeStatus.unpaid => None
  end.

Definition with_snapshot (st : SubscriptionStatus) (ps pe : option Z)
    (cape : bool) (now : Z) (r : SubscriptionRow) : SubscriptionRow :=
  mkSub (sub_pk r) (user_id r) (plan_id r) (stripe_customer_id r)
        (stripe_subscription_id r) st ps pe cape (trial_end r)
        (created_at r) now.

Definition with_status (st : SubscriptionStatus) (now : Z)
    (r : SubscriptionRow) : SubscriptionRow :=
  mkSub (sub_pk r) (user_id r) (plan_id r) (stripe_customer_id r)
        (stripe_subscription_id r) st (current_period_start r)
        (current_period_end r) (cancel_at_period_end r) (trial_end r)
        (created_at r) now.

Definition with_cancel_at_period_end (cape : bool) (now : Z)
    (r : SubscriptionRow) : SubscriptionRow :=
  mkSub (sub_pk r) (user_id r) (plan_id r) (stripe_customer_id r)
        (stripe_subscription_id r) (status r) (current_period_start r)
        (current_period_end r) cape (trial_end r)
        (created_at r) now.

(** [UPDATE subscriptions SET ... WHERE stripe_subscription_id = ?]:
    every row whose reference equals the parameter is rewritten. *)
Definition update_where (param : option string)
    (set : SubscriptionRow -> SubscriptionRow) (d : Db) : Db :=
  mkDb (server d)
       (subscription_plans d)
       (map (fun r => if eq_param d (stripe_subscription_id r) param
                      then set r else r)
            (subscriptions d))
       (subscriptions_auto_increment d)
       (payment_history d)
       (payment_history_auto_increment d).

(** Some row satisfies [WHERE stripe_subscription_id = ?]. *)
Definition matches_some (param : option string) (d : Db) : bool :=
  existsb (fun r => eq_param d (stripe_subscription_id r) param)
          (subscriptions d).

(** [UPDATE subscriptions SET status = ?, current_period_start =
    FROM_UNIXTIME(?), current_period_end = FROM_UNIXTIME(?),
    cancel_at_period_end = ?, updated_at = NOW() WHERE
    stripe_subscription_id = ?] with a provider status as first
    parameter.  A status the column does not take makes the statement
    fail as soon as there is a row to write it to. *)
Definition update_snapshot (param : option string) (st : StripeStatus.t)
    (ps pe : option Z) (cape : bool) (now : Z) (d : Db) : option Db :=
  match enum_status st with
  | Some st' => Some (update_where param (with_snapshot st' ps pe cape now) d)
  | None => if matches_some param d then None else Some d
  end.

Definition has_plan (d : Db) (pid : Z) : bool :=
  existsb (fun p => plan_pk p =? pid) (subscription_plans d).

Definition has_subscription (d : Db) (sid : Z) : bool :=
  existsb (fun r => sub_pk r =? sid) (subscriptions d).

(** [INSERT INTO subscriptions (user_id, plan_id, stripe_customer_id,
    stripe_subscription_id, status, current_period_start,
    current_period_end, trial_end) VALUES (...)].  The remaining columns
    take their defaults; the status must be one the column takes and
    the foreign key on [plan_id] is checked. *)
Definition insert_subscription (uid : string) (pid : Z)
    (cust sref : option string) (st : StripeStatus.t)
    (ps pe te : option Z) (now : Z) (d : Db) : option Db :=
  match enum_status st with
  | Some st' =>
      if has_plan d pid then
        Some (mkDb (server d)
                   (subscription_plans d)
                   (subscriptions d ++
                    [mkSub (subscriptions_auto_increment d) uid pid cust
                           sref st' ps pe false te now now])
                   (subscriptions_auto_increment d + 1)
                   (payment_history d)
                   (payment_history_auto_increment d))
      else None
  | None => None
  end.

(** [INSERT INTO payment_history (subscription_id,
    stripe_payment_intent_id, amount, currency, status, payment_method,
    paid_at) VALUES (?, ?, ?, ?, 'succeeded', ?, FROM_UNIXTIME(?))]. *)
Definition insert_payment (sid : Z) (intent : option string) (amt : Z)
    (cur method : string) (paid now : Z) (d : Db) : option Db :=
  if has_subscription d sid then
    Some (mkDb (server d)
               (subscription_plans d)
               (subscriptions d)
               (subscriptions_auto_increment d)
               (payment_history d ++
                [mkPay (payment_history_auto_increment d) sid intent amt
                       cur succeeded method paid now])
               (payment_history_auto_increment d + 1))
  else None.

(** [SELECT id FROM subscriptions WHERE stripe_subscription_id = ?
    LIMIT 1]. *)
Definition select_id_by_ref (param : option string) (d : Db) : list Z :=
  firstn 1 (map sub_pk
    (filter (fun r => eq_param d (stripe_subscription_id r) param)
            (subscriptions d))).

(** Row [r] comes out of [ORDER BY created_at DESC] before row [x]: it
    is younger, or as old and preferred by the server. *)
Definition comes_before (tie : Z -> Z -> bool) (r x : SubscriptionRow)
    : bool :=
  ((created_at x <? created_at r)
   || ((created_at x =? created_at r) && tie (sub_pk r) (sub_pk x)))%bool.

(** [ORDER BY created_at DESC], as an insertion sort. *)
Fixpoint insert_desc (tie : Z -> Z -> bool) (r : SubscriptionRow)
    (l : list SubscriptionRow) : list SubscriptionRow :=
  match l with
  | [] => [r]
  | x :: l' => if comes_before tie r x then r :: l
               else x :: insert_desc tie r l'
  end.

Definition order_by_created_at_desc (tie : Z -> Z -> bool)
    (l : list SubscriptionRow) : list SubscriptionRow :=
  fold_right (insert_desc tie) [] l.

(** [... FROM subscriptions s WHERE s.user_id = ? ORDER BY s.created_at
    DESC LIMIT 1], before projection. *)
Definition select_latest (uid : string) (d : Db) : list SubscriptionRow :=
  firstn 1 (order_by_created_at_desc (tie_break (server d))
    (filter (fun r => eq_text d (user_id r) uid) (subscriptions d))).

(** [LEFT JOIN subscription_plans p ON s.plan_id = p.id]: the plan's
    display columns, NULL when no plan matches. *)
Definition plan_of (d : Db) (r : SubscriptionRow) : option PlanRow :=
  find (fun p => plan_pk p =? plan_id r) (subscription_plans d).

Definition select_latest_with_plan (uid : string) (d : Db)
    : list (SubscriptionRow * option PlanRow) :=
  map (fun r => (r, plan_of d r)) (select_latest uid d).

End Sql.

(* ================================================================= *)
(** ** Worlds and the effect monad *)

Inductive TrpcCode : Type :=
| UNAUTHORIZED | FORBIDDEN | NOT_FOUND | INTERNAL_SERVER_ERROR.

(** What a JavaScript [throw] can carry here. *)
Inductive Exn : Type :=
| DbError
| StripeError (message : string)
| TRPCError (code : TrpcCode)
| Error (message : string).

Inductive LogEntry : Type :=
| console_log_entry (message : string)
| console_error_entry (message : string).

Record World : Type := mkWorld {
  db : Db;
  faults : list bool;
  clock : Z;
  console : list LogEntry
}.

Inductive Outcome (A : Type) : Type :=
| Returned (a : A)
| Thrown (e : Exn).
Arguments Returned {A} a.
Arguments Thrown {A} e.

Definition M (A : Type) : Type := World -> Outcome A * World.

Definition ret {A} (a : A) : M A := fun w => (Returned a, w).

Definition bind {A B} (m : M A) (k : A -> M B) : M B :=
  fun w => match m w with
           | (Returned a, w') => k a w'
           | (Thrown e, w') => (Thrown e, w')
           end.

Definition throw {A} (e : Exn) : M A := fun w => (Thrown e, w).

(** [try { body } catch (error) { handler }]. *)
Definition try_catch {A} (body : M A) (handler : Exn -> M A) : M A :=
  fun w => match body w with
           | (Returned a, w') => (Returned a, w')
           | (Thrown e, w') => handler e w'
           end.

Notation "x <- m ;; k" := (bind m (fun x => k))
  (at level 61, m at next level, right associativity).
Notation "m ;;; k" := (bind m (fun _ => k))
  (at level 61, right associativity).

Definition console_log (msg : string) : M unit :=
  fun w => (Returned tt,
            mkWorld (db w) (faults w) (clock w)
                    (console w ++ [console_log_entry msg])).

Definition console_error (msg : string) : M unit :=
  fun w => (Returned tt,
            mkWorld (db w) (faults w) (clock w)
                    (console w ++ [console_error_entry msg])).

(** [Date.now()], in milliseconds. *)
Definition Date_now : M Z := fun w => (Returned (clock w), w).

(** [NOW()] and [CURRENT_TIMESTAMP] on the database side, in seconds. *)
Definition sql_now (w : World) : Z := clock w / 1000.

(** The next entry of the fault schedule; an exhausted schedule means
    that no further query fails. *)
Definition next_fault (w : World) : bool :=
  match faults w with
  | [] => false
  | b :: _ => b
  end.

Definition consume_fault (w : World) : World :=
  mkWorld (db w) (tl (faults w)) (clock w) (console w).

(** [await db.query(SELECT ...)]. *)
Definition db_select {R} (q : Db -> list R) : M (list R) :=
  fun w => if next_fault w then (Thrown DbError, consume_fault w)
           else (Returned (q (db w)), consume_fault w).

(** [await db.query(UPDATE ...)]. *)
Definition db_update (q : Z -> Db -> Db) : M unit :=
  fun w => if next_fault w then (Thrown DbError, consume_fault w)
           else (Returned tt,
                 mkWorld (q (sql_now w) (db w)) (tl (faults w)) (clock w)
                         (console w)).

(** [await db.query(...)] for a statement the server may reject: an
    INSERT, or an UPDATE that assigns a value the column may not take.
    A rejected statement throws as well and changes nothing. *)
Definition db_write (q : Z -> Db -> option Db) : M unit :=
  fun w => if next_fault w then (Thrown DbError, consume_fault w)
           else match q (sql_now w) (db w) with
                | Some d => (Returned tt,
                             mkWorld d (tl (faults w)) (clock w) (console w))
                | None => (Thrown DbError, consume_fault w)
                end.


(* ================================================================= *)
(** ** The part of the Stripe SDK the code touches *)

Module Stripe.

(** [Stripe.Subscription], the fields that are read. *)
Record Subscription : Type := mkSubscription {
  id : string;
  status : StripeStatus.t;
  current_period_start : Z;
  current_period_end : Z;
  cancel_at_period_end : bool;
  trial_end : option Z
}.

(** [Stripe.Checkout.Session]: [metadata?.userId], [subscription] and
    [customer]. *)
Record CheckoutSession : Type := mkSession {
  metadata_userId : option string;
  subscription : option string;
  customer : option string
}.

(** [Stripe.Invoice]. *)
Record Invoice : Type := mkInvoice {
  invoice_id : string;
  invoice_subscription : option string;
  payment_intent : option string;
  amount_paid : option Z;
  currency : option string;
  payment_method_types : option (list string);
  status_transitions_paid_at : option Z
}.

(** [Stripe.Event]: the event type together with [event.data.object].
    [other] stands for every type outside the five that the switch of
    [handleStripeWebhook] names. *)
Inductive Event : Type :=
| checkout_session_completed (session : CheckoutSession)
| customer_subscription_updated (subscription : Subscription)
| customer_subscription_deleted (subscription : Subscription)
| invoice_payment_succeeded (invoice : Invoice)
| invoice_payment_failed (invoice : Invoice)
| other (type : string).

Definition type (e : Event) : string :=
  match e with
  | checkout_session_completed _ => "checkout.session.completed"
  | customer_subscription_updated _ => "customer.subscription.updated"
  | customer_subscription_deleted _ => "customer.subscription.deleted"
  | invoice_payment_succeeded _ => "invoice.payment_succeeded"
  | invoice_payment_failed _ => "invoice.payment_failed"
  | other t => t
  end.

(** The SDK as an oracle.  [inl msg] and [None] are a thrown error,
    [false] a failed update. *)
Record Api : Type := mkApi {
  webhooks_constructEvent : string -> string -> string -> string + Event;
  subscriptions_retrieve : string -> option Subscription;
  subscriptions_update : string -> bool -> bool;
  billingPortal_sessions_create : string -> option string;
  checkout_sessions_create : string -> string -> string -> string
                             -> option string
}.

End Stripe.

Definition message (e : Exn) : string :=
  match e with
  | DbError => "database error"
  | StripeError m => m
  | TRPCError _ => "TRPCError"
  | Error m => m
  end.

(** [await] on an SDK call that returns a value or throws. *)
Definition stripe_await {A} (r : option A) : M A :=
  match r with
  | Some a => ret a
  | None => throw (StripeError "stripe error")
  end.

(** [await] on an SDK call whose value is not used. *)
Definition stripe_await_ok (ok : bool) : M unit :=
  if ok then ret tt else throw (StripeError "stripe error").

(* ================================================================= *)
(** ** server/middleware/subscription.ts *)

(** The columns [hasActiveSubscription] selects. *)
Definition entitlement_columns (r : SubscriptionRow)
    : SubscriptionStatus * option Z * bool :=
  (Schema.status r, Schema.current_period_end r,
   Schema.cancel_at_period_end r).

(** [['active', 'trialing'].includes(status)]. *)
Definition includes_active_trialing (s : SubscriptionStatus) : bool :=
  existsb (status_eqb s) [active; trialing].

(** [sub.current_period_end && new Date(sub.current_period_end) >
    new Date()]: [null] when the column is NULL, a boolean otherwise. *)
Definition isNotExpired (period_end : option Z) (now_ms : Z) : JsVal :=
  match period_end with
  | None => JNull
  | Some t => JBool (now_ms <? t * 1000)
  end.

Definition hasActiveSubscription (userId : string) : M JsVal :=
  try_catch
    (subscription <-
       db_select (fun d => map entitlement_columns
                               (Sql.select_latest userId d)) ;;
     match subscription with
     | [] => ret (JBool false)
     | (sub_status, sub_current_period_end, _) :: _ =>
         let isActiveStatus := includes_active_trialing sub_status in
         now <- Date_now ;;
         ret (js_and (JBool isActiveStatus)
                     (isNotExpired sub_current_period_end now))
     end)
    (fun error =>
       console_error "Error checking subscription:" ;;;
       ret (JBool false)).

Definition requireAuth (userId : option string) : M string :=
  match userId with
  | Some u => if String.eqb u "" then throw (TRPCError UNAUTHORIZED)
              else ret u
  | None => throw (TRPCError UNAUTHORIZED)
  end.

Definition requirePremium (userId : option string) : M string :=
  validUserId <- requireAuth userId ;;
  hasAccess <- hasActiveSubscription validUserId ;;
  if negb (truthy hasAccess) then throw (TRPCError FORBIDDEN)
  else ret validUserId.

Record PlanView : Type := mkPlanView {
  name : option string;
  description : option string;
  priceMonthly : option Z;
  priceYearly : option Z
}.

Record SubscriptionView : Type := mkView {
  view_status : SubscriptionStatus;
  hasAccess : JsVal;
  plan : PlanView;
  currentPeriodStart : option Z;
  currentPeriodEnd : option Z;
  cancelAtPeriodEnd : bool;
  trialEnd : option Z;
  view_stripeCustomerId : option string;
  view_stripeSubscriptionId : option string
}.

(** The three shapes [getSubscriptionStatus] returns:
    [{status: 'none', hasAccess: false}],
    [{status: 'error', hasAccess: false}], and the full view. *)
Inductive StatusView : Type :=
| status_none
| status_error
| status_found (v : SubscriptionView).

(** [status.stripeCustomerId], [undefined] on the two short shapes. *)
Definition stripeCustomerId (s : StatusView) : option string :=
  match s with
  | status_found v => view_stripeCustomerId v
  | _ => None
  end.

Definition stripeSubscriptionId (s : StatusView) : option string :=
  match s with
  | status_found v => view_stripeSubscriptionId v
  | _ => None
  end.

Definition plan_view (p : option PlanRow) : PlanView :=
  match p with
  | Some p => mkPlanView (Some (plan_name p)) (plan_description p)
                         (Some (price_monthly p)) (price_yearly p)
  | None => mkPlanView None None None None
  end.

Definition getSubscriptionStatus (userId : string) : M StatusView :=
  try_catch
    (subscription <- db_select (Sql.select_latest_with_plan userId) ;;
     match subscription with
     | [] => ret status_none
     | (sub, p) :: _ =>
         hasAccess <- hasActiveSubscription userId ;;
         ret (status_found
                (mkView (Schema.status sub) hasAccess (plan_view p)
                        (Schema.current_period_start sub)
                        (Schema.current_period_end sub)
                        (Schema.cancel_at_period_end sub)
                        (Schema.trial_end sub)
                        (stripe_customer_id sub)
                        (stripe_subscription_id sub)))
     end)
    (fun error =>
       console_error "Error getting subscription status:" ;;;
       ret status_error).

(* ================================================================= *)
(** ** server/routers/subscription.ts *)

Record Success : Type := mkSuccess { success : bool }.
Record Received : Type := mkReceived { received : bool }.
Record Url : Type := mkUrl { url : string }.

Section Router.

(** The SDK client and [process.env.STRIPE_WEBHOOK_SECRET]. *)
Variable stripe : Stripe.Api.
Variable STRIPE_WEBHOOK_SECRET : option string.

Definition createCheckoutSession (userId userEmail priceId interval : string)
    : M string :=
  try_catch
    (stripe_await
       (Stripe.checkout_sessions_create stripe userEmail priceId userId
                                        interval))
    (fun error =>
       console_error "Error creating checkout session:" ;;;
       throw (TRPCError INTERNAL_SERVER_ERROR)).

Definition createPortalSession (stripeCustomerId : string) : M string :=
  try_catch
    (stripe_await (Stripe.billingPortal_sessions_create stripe
                                                        stripeCustomerId))
    (fun error =>
       console_error "Error creating portal session:" ;;;
       throw (TRPCError INTERNAL_SERVER_ERROR)).

Definition cancelSubscription (stripeSubscriptionId : string) : M Success :=
  try_catch
    (stripe_await_ok
       (Stripe.subscriptions_update stripe stripeSubscriptionId true) ;;;
     db_update (fun now =>
       Sql.update_where (Some stripeSubscriptionId)
                        (Sql.with_cancel_at_period_end true now)) ;;;
     ret (mkSuccess true))
    (fun error =>
       console_error "Error canceling subscription:" ;;;
       throw (TRPCError INTERNAL_SERVER_ERROR)).

Definition reactivateSubscription (stripeSubscriptionId : string)
    : M Success :=
  try_catch
    (stripe_await_ok
       (Stripe.subscriptions_update stripe stripeSubscriptionId false) ;;;
     db_update (fun now =>
       Sql.update_where (Some stripeSubscriptionId)
                        (Sql.with_cancel_at_period_end false now)) ;;;
     ret (mkSuccess true))
    (fun error =>
       console_error "Error reactivating subscription:" ;;;
       throw (TRPCError INTERNAL_SERVER_ERROR)).

(** [subscription.trial_end ? new Date(subscription.trial_end * 1000)
    : null]. *)
Definition trial_end_param (t : option Z) : option Z :=
  match t with
  | Some t => if t =? 0 then None else Some t
  | None => None
  end.

Definition handleCheckoutCompleted (session : Stripe.CheckoutSession)
    : M unit :=
  let userId := Stripe.metadata_userId session in
  let subscriptionId := Stripe.subscription session in
  if (negb (truthy_str userId) || negb (truthy_str subscriptionId))%bool
  then console_error "Missing userId or subscriptionId in checkout session"
  else
    try_catch
      (subscription <-
         stripe_await (Stripe.subscriptions_retrieve stripe
                         (str_or subscriptionId "")) ;;
       let planId := 1 in
       db_write (Sql.insert_subscription
                    (str_or userId "") planId
                    (Stripe.customer session) subscriptionId
                    (Stripe.status subscription)
                    (Some (Stripe.current_period_start subscription))
                    (Some (Stripe.current_period_end subscription))
                    (trial_end_param (Stripe.trial_end subscription))) ;;;
       console_log ("Subscription created for user " ++ str_or userId ""))
      (fun error => console_error "Error handling checkout completed:").

Definition handleSubscriptionUpdated (subscription : Stripe.Subscription)
    : M unit :=
  try_catch
    (db_write (Sql.update_snapshot
                 (Some (Stripe.id subscription))
                 (Stripe.status subscription)
                 (Some (Stripe.current_period_start subscription))
                 (Some (Stripe.current_period_end subscription))
                 (Stripe.cancel_at_period_end subscription)) ;;;
     console_log ("Subscription updated: " ++ Stripe.id subscription))
    (fun error => console_error "Error handling subscription updated:").

Definition handleSubscriptionCanceled (subscription : Stripe.Subscription)
    : M unit :=
  try_catch
    (db_update (fun now =>
       Sql.update_where (Some (Stripe.id subscription))
                        (Sql.with_status canceled now)) ;;;
     console_log ("Subscription canceled: " ++ Stripe.id subscription))
    (fun error => console_error "Error handling subscription canceled:").

Definition handlePaymentSucceeded (invoice : Stripe.Invoice) : M unit :=
  try_catch
    (result <- db_select (Sql.select_id_by_ref
                            (Stripe.invoice_subscription invoice)) ;;
     match result with
     | [] =>
         console_error ("Subscription not found for invoice: "
                        ++ Stripe.invoice_id invoice)
     | subscriptionId :: _ =>
         now <- Date_now ;;
         db_write (Sql.insert_payment
                      subscriptionId
                      (Stripe.payment_intent invoice)
                      (num_or (Stripe.amount_paid invoice) 0)
                      (str_or (option_map toUpperCase
                                 (Stripe.currency invoice)) "BRL")
                      (str_or (match Stripe.payment_method_types invoice with
                               | Some (m :: _) => Some m
                               | _ => None
                               end) "card")
                      (num_or (Stripe.status_transitions_paid_at invoice)
                              (now / 1000))) ;;;
         console_log ("Payment succeeded for invoice: "
                      ++ Stripe.invoice_id invoice)
     end)
    (fun error => console_error "Error handling payment succeeded:").

Definition handlePaymentFailed (invoice : Stripe.Invoice) : M unit :=
  try_catch
    (db_update (fun now =>
       Sql.update_where (Stripe.invoice_subscription invoice)
                        (Sql.with_status past_due now)) ;;;
     console_log ("Payment failed for invoice: "
                  ++ Stripe.invoice_id invoice))
    (fun error => console_error "Error handling payment failed:").

(** The switch on [event.type]. *)
Definition dispatch (event : Stripe.Event) : M unit :=
  match event with
  | Stripe.checkout_session_completed o => handleCheckoutCompleted o
  | Stripe.customer_subscription_updated o => handleSubscriptionUpdated o
  | Stripe.customer_subscription_deleted o => handleSubscriptionCanceled o
  | Stripe.invoice_payment_succeeded o => handlePaymentSucceeded o
  | Stripe.invoice_payment_failed o => handlePaymentFailed o
  | Stripe.other t => console_log ("Unhandled event type: " ++ t)
  end.

Definition constructEvent (body signature : string) : M Stripe.Event :=
  match Stripe.webhooks_constructEvent stripe body signature
          (str_or STRIPE_WEBHOOK_SECRET "") with
  | inr event => ret event
  | inl msg => throw (StripeError msg)
  end.

Definition handleStripeWebhook (body signature : string) : M Received :=
  event <-
    try_catch (constructEvent body signature)
      (fun err =>
         console_error ("Webhook signature verification failed: "
                        ++ message err) ;;;
         throw (Error ("Webhook Error: " ++ message err))) ;;
  console_log ("Received Stripe event: " ++ Stripe.type event) ;;;
  dispatch event ;;;
  ret (mkReceived true).

(** *** [subscriptionRouter] *)

Definition getStatus (userId : string) : M StatusView :=
  requireAuth (Some userId) ;;;
  getSubscriptionStatus userId.

Definition createCheckout (userId userEmail priceId interval : string)
    : M Url :=
  requireAuth (Some userId) ;;;
  u <- createCheckoutSession userId userEmail priceId interval ;;
  ret (mkUrl u).

Definition createPortal (userId : string) : M Url :=
  requireAuth (Some userId) ;;;
  status <- getSubscriptionStatus userId ;;
  if negb (truthy_str (stripeCustomerId status))
  then throw (TRPCError NOT_FOUND)
  else
    u <- createPortalSession (str_or (stripeCustomerId status) "") ;;
    ret (mkUrl u).

Definition cancel (userId : string) : M Success :=
  requireAuth (Some userId) ;;;
  status <- getSubscriptionStatus userId ;;
  if negb (truthy_str (stripeSubscriptionId status))
  then throw (TRPCError NOT_FOUND)
  else cancelSubscription (str_or (stripeSubscriptionId status) "").

Definition reactivate (userId : string) : M Success :=
  requireAuth (Some userId) ;;;
  status <- getSubscriptionStatus userId ;;
  if negb (truthy_str (stripeSubscriptionId status))
  then throw (TRPCError NOT_FOUND)
  else reactivateSubscription (str_or (stripeSubscriptionId status) "").

End Router.

(* ================================================================= *)
(** ** Vocabulary of the specification *)

(** The subscription record stored at a position of the table. *)
Definition row_at (i : nat) (w : World) : option SubscriptionRow :=
  nth_error (subscriptions (db w)) i.

(** The record the entitlement queries look at: the first row of
    [WHERE user_id = ? ORDER BY created_at DESC LIMIT 1]. *)
Definition latest_subscription (uid : string) (d : Db)
    : option SubscriptionRow :=
  hd_error (Sql.select_latest uid d).


(** The entries of a fault schedule [l] used up when [l'] is what is left
    of it contain a fault. *)
Definition consumed_fault (l l' : list bool) : bool :=
  existsb (fun b => b) (firstn (List.length l - List.length l') l).

(** Some [db.query] issued between [w] and [w'] threw. *)
Definition faulted (w w' : World) : bool :=
  consumed_fault (faults w) (faults w').

(** The provider customer reference [getSubscriptionStatus] reports for a
    user: that of the latest record, when the store answers and there is
    one. *)
Definition customer_ref (uid : string) (w : World) : option string :=
  if next_fault w then None
  else match latest_subscription uid (db w) with
       | Some r => stripe_customer_id r
       | None => None
       end.

(** Likewise for the provider subscription reference. *)
Definition subscription_ref (uid : string) (w : World) : option string :=
  if next_fault w then None
  else match latest_subscription uid (db w) with
       | Some r => stripe_subscription_id r
       | None => None
       end.

(** The fault schedule left once [getSubscriptionStatus] has read a
    record: its own SELECT and that of [hasActiveSubscription] are
    spent. *)
Definition after_status_read (w : World) : list bool :=
  tl (tl (faults w)).

(** The local mirror write of [cancel] and [reactivate] throws. *)
Definition mirror_write_fails (w : World) : bool :=
  match after_status_read w with
  | [] => false
  | b :: _ => b
  end.

(** No subscription record carries the reference: [WHERE
    stripe_subscription_id = ?] finds no row. *)
Definition unknown_ref (ref : option string) (d : Db) : Prop :=
  forall r, In r (subscriptions d) ->
            Sql.eq_param d (stripe_subscription_id r) ref = false.

(** Number of payment records keyed by a payment reference. *)
Definition payments_with_ref (p : string) (d : Db) : nat :=
  List.length
    (filter (fun r => Sql.same_text (stripe_payment_intent_id r) p)
            (payment_history d)).

(** A sequence of [invoice.payment_succeeded] deliveries, one after the
    other. *)
Fixpoint deliver_payments (l : list Stripe.Invoice) : M unit :=
  match l with
  | [] => ret tt
  | i :: l' => handlePaymentSucceeded i ;;; deliver_payments l'
  end.

(** The last line written to the console, if any. *)
Definition last_console (w : World) : option LogEntry :=
  hd_error (rev (console w)).

Definition is_console_error (e : option LogEntry) : bool :=
  match e with
  | Some (console_error_entry _) => true
  | _ => false
  end.

(** A world that differs from [w] in its tables only. *)
Definition with_db (d : Db) (w : World) : World :=
  mkWorld d (faults w) (clock w) (console w).

(** The columns of a subscription record that no UPDATE of the code
    assigns. *)
Definition identity_columns (r : SubscriptionRow)
    : Z * string * Z * option string * option string * option Z * Z :=
  (sub_pk r, user_id r, plan_id r, stripe_customer_id r,
   stripe_subscription_id r, Schema.trial_end r, created_at r).

(** Every column but [updated_at]. *)
Definition content_columns (r : SubscriptionRow)
    : (Z * string * Z * option string * option string * option Z * Z)
      * SubscriptionStatus * option Z * option Z * bool :=
  (identity_columns r, Schema.status r, Schema.current_period_start r,
   Schema.current_period_end r, Schema.cancel_at_period_end r).

(** The writes the code can make to the tables: one of its UPDATEs, which
    assign none of the identity columns, or one of its two INSERTs. *)
Inductive db_step (d : Db) : Db -> Prop :=
| step_none : db_step d d
| step_update (p : option string)
    (set : SubscriptionRow -> SubscriptionRow) :
    (forall r, identity_columns (set r) = identity_columns r) ->
    db_step d (Sql.update_where p set d)
| step_insert_subscription (uid : string) (pid : Z)
    (cust sref : option string) (st : StripeStatus.t)
    (ps pe te : option Z) (now : Z) (d' : Db) :
    Sql.insert_subscription uid pid cust sref st ps pe te now d = Some d' ->
    db_step d d'
| step_insert_payment (sid : Z) (intent : option string) (amt : Z)
    (cur method : string) (paid now : Z) (d' : Db) :
    Sql.insert_payment sid intent amt cur method paid now d = Some d' ->
    db_step d d'.

(** Integrity of the keys: primary keys are distinct and below their
    AUTO_INCREMENT counter, and both foreign keys point at a row. *)
Definition well_keyed (d : Db) : Prop :=
  NoDup (map sub_pk (subscriptions d))
  /\ (forall r, In r (subscriptions d) ->
                sub_pk r < subscriptions_auto_increment d)
  /\ NoDup (map pay_pk (payment_history d))
  /\ (forall p, In p (payment_history d) ->
                pay_pk p < payment_history_auto_increment d)
  /\ (forall r, In r (subscriptions d) ->
                Sql.has_plan d (plan_id r) = true)
  /\ (forall p, In p (payment_history d) ->
                Sql.has_subscription d (subscription_id p) = true).

(** An ASCII lower-case letter. *)
Definition is_lower (c : ascii) : bool :=
  (Nat.leb 97 (nat_of_ascii c) && Nat.leb (nat_of_ascii c) 122)%bool.

Fixpoint has_lower (s : string) : bool :=
  match s with
  | EmptyString => false
  | String c s' => (is_lower c || has_lower s')%bool
  end.

(** The first record, in storage order, that carries a reference. *)
Definition first_with_ref (ref : option string) (d : Db)
    : option SubscriptionRow :=
  find (fun r => Sql.eq_param d (stripe_subscription_id r) ref)
       (subscriptions d).

(** Blanks at the end of a string removed. *)
Fixpoint rtrim (s : string) : string :=
  match s with
  | EmptyString => EmptyString
  | String c s' =>
      match rtrim s' with
      | EmptyString => if Ascii.eqb c " " then EmptyString
                       else String c EmptyString
      | t => String c t
      end
  end.

(* ----------------------------------------------------------------- *)
(** *** Sample data *)

Module Sample.

Definition premium : PlanRow :=
  mkPlan 1 "Premium" (Some "Acesso completo") 1990 (Some 19900).

(** User 42 with subscription S1, created at second 90. *)
Definition row_S1 (st : SubscriptionStatus) (period_end : option Z)
    : SubscriptionRow :=
  mkSub 1 "42" 1 (Some "cus_1") (Some "S1") st (Some 100) period_end
        false None 90 90.

(** A server for strings of ASCII letters, digits and blanks, where
    utf8mb4_unicode_ci identifies the strings that agree up to case and
    trailing blanks; among rows of the same second it hands out the one
    with the smaller key first. *)
Definition mysql : Server :=
  mkServer (fun s => toUpperCase (rtrim s)) Z.ltb.

Definition store (st : SubscriptionStatus) (period_end : option Z) : Db :=
  mkDb mysql [premium] [row_S1 st period_end] 2 [] 1.

(** A world at second 150. *)
Definition world (st : SubscriptionStatus) (period_end : option Z)
    (schedule : list bool) : World :=
  mkWorld (store st period_end) schedule 150000 [].

Definition empty_world : World :=
  mkWorld (mkDb mysql [premium] [] 1 [] 1) [] 150000 [].

(** A user whose record carries no provider identifiers. *)
Definition unlinked_world : World :=
  mkWorld (mkDb mysql [premium]
                [mkSub 1 "42" 1 None None incomplete None None false None
                       90 90]
                2 [] 1) [] 150000 [].

Definition snapshot_S1 (st : StripeStatus.t) : Stripe.Subscription :=
  Stripe.mkSubscription "S1" st 200 300 true None.

Definition session_S1 : Stripe.CheckoutSession :=
  Stripe.mkSession (Some "42") (Some "S1") (Some "cus_1").

Definition invoice_P1 (sub : string) : Stripe.Invoice :=
  Stripe.mkInvoice "in_1" (Some sub) (Some "P1") (Some 1990) (Some "brl")
                   None None.

(** An SDK that accepts the signature ["good"] and then reports the event
    given, and whose calls succeed or fail as [up] says. *)
Definition sdk (event : Stripe.Event) (up : bool) : Stripe.Api :=
  Stripe.mkApi
    (fun body signature secret =>
       if String.eqb signature "good" then inr event
       else inl "No signatures found matching the expected signature")
    (fun _ => if up then Some (snapshot_S1 StripeStatus.trialing) else None)
    (fun _ _ => up)
    (fun _ => if up then Some "https://billing.stripe.com/p/session"
              else None)
    (fun _ _ _ _ => if up then Some "https://checkout.stripe.com/c/pay"
                    else None).

End Sample.

(* ================================================================= *)
(** ** Basic facts about the SQL layer *)

Ltac unfold_monad :=
  unfold stripe_await, stripe_await_ok, db_select, db_update, db_write,
         console_log, console_error, Date_now, consume_fault,
         try_catch, bind, throw, ret.

Lemma eq_text_refl (d : Db) (a : string) : Sql.eq_text d a a = true.
Proof. apply String.eqb_refl. Qed.

Lemma insert_desc_In (tie : Z -> Z -> bool) (r x : SubscriptionRow)
    (l : list SubscriptionRow) :
  In x (Sql.insert_desc tie r l) <-> x = r \/ In x l.
Proof.
  induction l as [|h t IH]; simpl.
  - intuition congruence.
  - destruct (Sql.comes_before tie r h); simpl.
    + intuition congruence.
    + rewrite IH. intuition congruence.
Qed.

Lemma order_by_In (tie : Z -> Z -> bool) (x : SubscriptionRow)
    (l : list SubscriptionRow) :
  In x (Sql.order_by_created_at_desc tie l) <-> In x l.
Proof.
  induction l as [|h t IH]; simpl.
  - tauto.
  - rewrite insert_desc_In, IH. intuition congruence.
Qed.





Lemma latest_subscription_none (uid : string) (d : Db) :
  latest_subscription uid d = None <->
  forall r, In r (subscriptions d) ->
            Sql.eq_text d (user_id r) uid = false.
Proof.
  unfold latest_subscription, Sql.select_latest.
  set (mine := filter (fun r => Sql.eq_text d (user_id r) uid)
                      (subscriptions d)).
  split.
  - intros H r Hr.
    destruct (Sql.eq_text d (user_id r) uid) eqn:Hu; trivial.
    assert (Hin : In r (Sql.order_by_created_at_desc
                          (tie_break (server d)) mine)).
    { apply order_by_In. apply filter_In. now split. }
    destruct (Sql.order_by_created_at_desc _ mine); simpl in *;
      [contradiction|discriminate].
  - intros H.
    destruct (Sql.order_by_created_at_desc _ mine) as [|h t] eqn:E;
      simpl; trivial.
    assert (Hin : In h mine).
    { apply (order_by_In (tie_break (server d))). rewrite E. now left. }
    apply filter_In in Hin as [Hin Hu].
    rewrite (H h Hin) in Hu. discriminate.
Qed.

Lemma select_latest_hd (uid : string) (d : Db) :
  Sql.select_latest uid d =
  match latest_subscription uid d with
  | Some r => [r]
  | None => []
  end.
Proof.
  unfold latest_subscription, Sql.select_latest.
  now destruct (Sql.order_by_created_at_desc _).
Qed.


(* ================================================================= *)
(** ** Entitlement queries *)

(** What [hasActiveSubscription] computes, as a function of the fault
    schedule, the latest record and the clock. *)
Lemma hasActiveSubscription_run (uid : string) (w : World) :
  fst (hasActiveSubscription uid w) =
  Returned
    (if next_fault w then JBool false
     else match latest_subscription uid (db w) with
          | None => JBool false
          | Some r => js_and (JBool (includes_active_trialing (status r)))
                             (isNotExpired (Schema.current_period_end r)
                                           (clock w))
          end).
Proof.
  unfold hasActiveSubscription. unfold_monad.
  destruct (next_fault w); [reflexivity|].
  rewrite select_latest_hd.
  now destruct (latest_subscription uid (db w)).
Qed.

(** Neither entitlement query writes to the tables. *)
Lemma hasActiveSubscription_db (uid : string) (w : World) :
  db (snd (hasActiveSubscription uid w)) = db w.
Proof.
  unfold hasActiveSubscription. unfold_monad.
  destruct (next_fault w); [reflexivity|].
  now destruct (map entitlement_columns _) as [|[[? ?] ?] ?].
Qed.



(** Whatever the store does, the query returns and does not throw. *)
Lemma hasActiveSubscription_never_throws (uid : string) (w : World) :
  exists v, fst (hasActiveSubscription uid w) = Returned v.
Proof.
  rewrite hasActiveSubscription_run. eauto.
Qed.

(** A failing store query denies access. *)
Lemma hasActiveSubscription_fail_closed (uid : string) (w : World) :
  next_fault w = true ->
  fst (hasActiveSubscription uid w) = Returned (JBool false).
Proof.
  intros F. now rewrite hasActiveSubscription_run, F.
Qed.

(** With a NULL period end the answer is falsy: [false] when the status
    is not among active and trialing, and [null] when it is. *)
Lemma hasActiveSubscription_null_period_end (uid : string) (w : World)
    (r : SubscriptionRow) :
  next_fault w = false ->
  latest_subscription uid (db w) = Some r ->
  Schema.current_period_end r = None ->
  fst (hasActiveSubscription uid w) =
  Returned (if includes_active_trialing (status r) then JNull
            else JBool false).
Proof.
  intros F L P. rewrite hasActiveSubscription_run, F, L, P.
  now destruct (includes_active_trialing (status r)).
Qed.

(** C10 -- Fail-closed entitlement query.  For an active record whose
    [current_period_end] is NULL, [hasActiveSubscription] resolves to
    [null], not to the boolean [false] that its documentation and its
    return type promise. *)
Theorem hasActiveSubscription_returns_null :
  fst (hasActiveSubscription "42" (Sample.world active None []))
  = Returned JNull
  /\ JNull <> JBool false.
Proof.
  split; [reflexivity|discriminate].
Qed.

(* ================================================================= *)
(** ** The reconciler, handler by handler *)

Lemma update_where_row (p : option string)
    (f : SubscriptionRow -> SubscriptionRow) (d : Db) (i : nat) :
  nth_error (subscriptions (Sql.update_where p f d)) i =
  option_map (fun r => if Sql.eq_param d (stripe_subscription_id r) p
                       then f r else r)
             (nth_error (subscriptions d) i).
Proof.
  unfold Sql.update_where. simpl. apply nth_error_map.
Qed.

Lemma eq_param_refl (d : Db) (s : string) :
  Sql.eq_param d (Some s) (Some s) = true.
Proof. apply eq_text_refl. Qed.

Lemma handleSubscriptionUpdated_db (s : Stripe.Subscription) (w : World) :
  db (snd (handleSubscriptionUpdated s w)) =
  if next_fault w then db w
  else match Sql.enum_status (Stripe.status s) with
       | Some st =>
           Sql.update_where (Some (Stripe.id s))
             (Sql.with_snapshot st
                (Some (Stripe.current_period_start s))
                (Some (Stripe.current_period_end s))
                (Stripe.cancel_at_period_end s) (sql_now w))
             (db w)
       | None => db w
       end.
Proof.
  unfold handleSubscriptionUpdated. unfold_monad.
  destruct (next_fault w); [reflexivity|].
  unfold Sql.update_snapshot.
  destruct (Sql.enum_status (Stripe.status s)); [reflexivity|].
  now destruct (Sql.matches_some _ _).
Qed.

Lemma handleSubscriptionCanceled_db (s : Stripe.Subscription) (w : World) :
  db (snd (handleSubscriptionCanceled s w)) =
  if next_fault w then db w
  else Sql.update_where (Some (Stripe.id s))
         (Sql.with_status canceled (sql_now w)) (db w).
Proof.
  unfold handleSubscriptionCanceled. unfold_monad.
  now destruct (next_fault w).
Qed.

Lemma handlePaymentFailed_db (inv : Stripe.Invoice) (w : World) :
  db (snd (handlePaymentFailed inv w)) =
  if next_fault w then db w
  else Sql.update_where (Stripe.invoice_subscription inv)
         (Sql.with_status past_due (sql_now w)) (db w).
Proof.
  unfold handlePaymentFailed. unfold_monad.
  now destruct (next_fault w).
Qed.




(** C1, as the code has it -- there is no terminal-state guard.  For a
    canceled record carrying the event's reference, SubscriptionUpdated
    writes the event's status over it and PaymentFailed sets it to
    past_due; the record keeps status canceled only when the event itself
    says canceled or when the UPDATE fails, be it that the query throws
    or that the event's status is one the column rejects. *)
Theorem canceled_is_overwritten (w : World) (i : nat) (r : SubscriptionRow)
    (s : Stripe.Subscription) (inv : Stripe.Invoice) :
  row_at i w = Some r ->
  status r = canceled ->
  stripe_subscription_id r = Some (Stripe.id s) ->
  Stripe.invoice_subscription inv = stripe_subscription_id r ->
  (exists r', row_at i (snd (handleSubscriptionUpdated s w)) = Some r' /\
              sub_pk r' = sub_pk r /\
              status r' = if next_fault w then canceled
                          else match Sql.enum_status (Stripe.status s) with
                               | Some st => st
                               | None => canceled
                               end)
  /\ (exists r', row_at i (snd (handlePaymentFailed inv w)) = Some r' /\
                 sub_pk r' = sub_pk r /\
                 status r' = if next_fault w then canceled else past_due).
Proof.
  intros R C K I. unfold row_at in *.
  rewrite handleSubscriptionUpdated_db, handlePaymentFailed_db.
  destruct (next_fault w).
  - split; exists r; auto.
  - split.
    + destruct (Sql.enum_status (Stripe.status s)); [|exists r; auto].
      rewrite update_where_row, R. simpl. rewrite K, eq_param_refl.
      eexists. split; [reflexivity|]. auto.
    + rewrite update_where_row, R, I. simpl. rewrite K, eq_param_refl.
      eexists. split; [reflexivity|]. auto.
Qed.

Lemma canceled_is_overwritten_witness :
  option_map status
    (row_at 0 (snd (handlePaymentFailed (Sample.invoice_P1 "S1")
                      (Sample.world canceled (Some 200) []))))
  = Some past_due.
Proof.
  destruct (canceled_is_overwritten
              (Sample.world canceled (Some 200) []) 0
              (Sample.row_S1 canceled (Some 200))
              (Sample.snapshot_S1 StripeStatus.active)
              (Sample.invoice_P1 "S1"))
    as [_ [r' [R [_ S]]]];
    [reflexivity | reflexivity | reflexivity | reflexivity |].
  rewrite R. simpl. now rewrite S.
Defined.

(** C1, refuted as stated: the record of S1 is canceled, and after a
    SubscriptionUpdated event for S1 its status is active, after a
    PaymentFailed event for S1 it is past_due. *)
Lemma terminal_state_counterexample :
  option_map status (row_at 0 (Sample.world canceled (Some 200) []))
  = Some canceled
  /\ option_map stripe_subscription_id
       (row_at 0 (Sample.world canceled (Some 200) []))
     = Some (Some (Stripe.id (Sample.snapshot_S1 StripeStatus.active)))
  /\ option_map status
       (row_at 0 (snd (handleSubscriptionUpdated
                         (Sample.snapshot_S1 StripeStatus.active)
                         (Sample.world canceled (Some 200) []))))
     = Some active
  /\ option_map status
       (row_at 0 (snd (handlePaymentFailed (Sample.invoice_P1 "S1")
                         (Sample.world canceled (Some 200) []))))
     = Some past_due.
Proof.
  repeat split.
Qed.

(* ================================================================= *)
(** ** The webhook entry point *)

Lemma last_console_snoc (l : list LogEntry) (e : LogEntry) :
  hd_error (rev (l ++ [e])) = Some e.
Proof. now rewrite rev_app_distr. Qed.

Lemma unknown_ref_select (ref : option string) (d : Db) :
  unknown_ref ref d -> Sql.select_id_by_ref ref d = [].
Proof.
  unfold unknown_ref, Sql.select_id_by_ref. intros U.
  replace (filter _ (subscriptions d)) with (@nil SubscriptionRow);
    [reflexivity|].
  induction (subscriptions d) as [|h t IH]; simpl; trivial.
  rewrite (U h (or_introl eq_refl)). apply IH.
  intros r Hr. apply U. now right.
Qed.

(** C6 -- Signature rejection without state change.  When the payload
    does not verify against the shared secret, [handleStripeWebhook]
    throws an error carrying the verification failure, after logging it;
    no query is issued and the tables are as before, so no handler ran. *)
Theorem bad_signature_rejected (stripe : Stripe.Api)
    (secret : option string) (body signature msg : string) (w : World) :
  Stripe.webhooks_constructEvent stripe body signature (str_or secret "")
  = inl msg ->
  fst (handleStripeWebhook stripe secret body signature w)
  = Thrown (Error ("Webhook Error: " ++ msg))
  /\ db (snd (handleStripeWebhook stripe secret body signature w)) = db w
  /\ faults (snd (handleStripeWebhook stripe secret body signature w))
     = faults w
  /\ console (snd (handleStripeWebhook stripe secret body signature w))
     = (console w ++
        [console_error_entry
           ("Webhook signature verification failed: " ++ msg)])%list.
Proof.
  intros V. unfold handleStripeWebhook, constructEvent.
  rewrite V. unfold_monad. simpl. auto.
Qed.

Lemma bad_signature_rejected_witness :
  db (snd (handleStripeWebhook
             (Sample.sdk (Stripe.customer_subscription_deleted
                            (Sample.snapshot_S1 StripeStatus.canceled)) true)
             (Some "whsec_1") "{}" "forged"
             (Sample.world active (Some 200) [])))
  = Sample.store active (Some 200).
Proof.
  apply (bad_signature_rejected
           (Sample.sdk (Stripe.customer_subscription_deleted
                          (Sample.snapshot_S1 StripeStatus.canceled)) true)
           (Some "whsec_1") "{}" "forged"
           "No signatures found matching the expected signature"
           (Sample.world active (Some 200) [])).
  reflexivity.
Defined.

Lemma handlePaymentSucceeded_returns (inv : Stripe.Invoice) (w : World) :
  fst (handlePaymentSucceeded inv w) = Returned tt.
Proof.
  unfold handlePaymentSucceeded. unfold_monad.
  destruct (next_fault w); [reflexivity|].
  destruct (Sql.select_id_by_ref _ _) as [|sid rest]; [reflexivity|].
  simpl. destruct (next_fault (mkWorld _ _ _ _)); [reflexivity|].
  now destruct (Sql.insert_payment _ _ _ _ _ _ _ _).
Qed.

Lemma handlePaymentSucceeded_dangling (inv : Stripe.Invoice) (w : World) :
  unknown_ref (Stripe.invoice_subscription inv) (db w) ->
  db (snd (handlePaymentSucceeded inv w)) = db w /\
  is_console_error (last_console (snd (handlePaymentSucceeded inv w)))
  = true.
Proof.
  intros U. unfold handlePaymentSucceeded, last_console. unfold_monad.
  destruct (next_fault w); simpl.
  - now rewrite last_console_snoc.
  - rewrite (unknown_ref_select _ _ U). simpl.
    now rewrite last_console_snoc.
Qed.

(** Every handler returns; none lets an error escape. *)
Lemma handleCheckoutCompleted_returns (stripe : Stripe.Api)
    (session : Stripe.CheckoutSession) (w : World) :
  fst (handleCheckoutCompleted stripe session w) = Returned tt.
Proof.
  unfold handleCheckoutCompleted.
  destruct (negb _ || negb _)%bool; [reflexivity|].
  unfold_monad.
  destruct (Stripe.subscriptions_retrieve stripe _); [|reflexivity].
  simpl. destruct (next_fault w); [reflexivity|].
  now destruct (Sql.insert_subscription _ _ _ _ _ _ _ _ _ _).
Qed.

Lemma handleSubscriptionUpdated_returns (s : Stripe.Subscription)
    (w : World) :
  fst (handleSubscriptionUpdated s w) = Returned tt.
Proof.
  unfold handleSubscriptionUpdated. unfold_monad.
  destruct (next_fault w); [reflexivity|].
  now destruct (Sql.update_snapshot _ _ _ _ _ _ _).
Qed.

Lemma handleSubscriptionCanceled_returns (s : Stripe.Subscription)
    (w : World) :
  fst (handleSubscriptionCanceled s w) = Returned tt.
Proof.
  unfold handleSubscriptionCanceled. unfold_monad.
  now destruct (next_fault w).
Qed.

Lemma handlePaymentFailed_returns (inv : Stripe.Invoice) (w : World) :
  fst (handlePaymentFailed inv w) = Returned tt.
Proof.
  unfold handlePaymentFailed. unfold_monad.
  now destruct (next_fault w).
Qed.

Lemma dispatch_returns (stripe : Stripe.Api) (e : Stripe.Event) (w : World) :
  fst (dispatch stripe e w) = Returned tt.
Proof.
  destruct e; simpl.
  - apply handleCheckoutCompleted_returns.
  - apply handleSubscriptionUpdated_returns.
  - apply handleSubscriptionCanceled_returns.
  - apply handlePaymentSucceeded_returns.
  - apply handlePaymentFailed_returns.
  - reflexivity.
Qed.

(** The world in which the handler of a verified event starts. *)
Lemma handleStripeWebhook_verified (stripe : Stripe.Api)
    (secret : option string) (body signature : string)
    (e : Stripe.Event) (w : World) :
  Stripe.webhooks_constructEvent stripe body signature (str_or secret "")
  = inr e ->
  handleStripeWebhook stripe secret body signature w =
  (Returned (mkReceived true),
   snd (dispatch stripe e
          (snd (console_log ("Received Stripe event: " ++ Stripe.type e)
                            w)))).
Proof.
  intros V. unfold handleStripeWebhook, constructEvent. rewrite V.
  unfold bind, try_catch, ret. simpl.
  pose proof (dispatch_returns stripe e
                (snd (console_log ("Received Stripe event: "
                                   ++ Stripe.type e) w))) as R.
  simpl in R.
  destruct (dispatch stripe e _) as [o w']. simpl in *. now subst o.
Qed.

(** C7 -- Dangling payment reference.  A PaymentSucceeded event whose
    subscription reference matches no subscription record creates no
    payment record and changes nothing else in the tables; the handler
    returns without throwing, having reported the event on the error
    console, and the webhook acknowledges the event. *)
Theorem dangling_payment_acknowledged (stripe : Stripe.Api)
    (secret : option string) (body signature : string)
    (inv : Stripe.Invoice) (w : World) :
  Stripe.webhooks_constructEvent stripe body signature (str_or secret "")
  = inr (Stripe.invoice_payment_succeeded inv) ->
  unknown_ref (Stripe.invoice_subscription inv) (db w) ->
  fst (handlePaymentSucceeded inv w) = Returned tt
  /\ db (snd (handlePaymentSucceeded inv w)) = db w
  /\ is_console_error (last_console (snd (handlePaymentSucceeded inv w)))
     = true
  /\ fst (handleStripeWebhook stripe secret body signature w)
     = Returned (mkReceived true)
  /\ db (snd (handleStripeWebhook stripe secret body signature w)) = db w.
Proof.
  intros V U.
  split; [apply handlePaymentSucceeded_returns|].
  destruct (handlePaymentSucceeded_dangling inv w U) as [D E].
  split; [exact D|]. split; [exact E|].
  rewrite (handleStripeWebhook_verified _ _ _ _ _ _ V).
  split; [reflexivity|].
  cbn [snd dispatch].
  now apply (handlePaymentSucceeded_dangling inv
               (snd (console_log _ w))).
Qed.

(** An invoice for the unknown subscription S9 against a store that only
    knows S1. *)
Lemma dangling_payment_acknowledged_witness :
  fst (handleStripeWebhook
         (Sample.sdk (Stripe.invoice_payment_succeeded
                        (Sample.invoice_P1 "S9")) true)
         None "{}" "good" (Sample.world active (Some 200) []))
  = Returned (mkReceived true)
  /\ payment_history
       (db (snd (handleStripeWebhook
                   (Sample.sdk (Stripe.invoice_payment_succeeded
                                  (Sample.invoice_P1 "S9")) true)
                   None "{}" "good" (Sample.world active (Some 200) []))))
     = [].
Proof.
  destruct (dangling_payment_acknowledged
              (Sample.sdk (Stripe.invoice_payment_succeeded
                             (Sample.invoice_P1 "S9")) true)
              None "{}" "good" (Sample.invoice_P1 "S9")
              (Sample.world active (Some 200) []))
    as [_ [_ [_ [A D]]]].
  - reflexivity.
  - intros r [<-|[]]. reflexivity.
  - split; [exact A|]. now rewrite D.
Defined.

(* ================================================================= *)
(** ** Duplicate deliveries *)

Lemma handleCheckoutCompleted_db (stripe : Stripe.Api)
    (session : Stripe.CheckoutSession) (w : World) :
  db (snd (handleCheckoutCompleted stripe session w)) =
  if (truthy_str (Stripe.metadata_userId session)
      && truthy_str (Stripe.subscription session))%bool
  then match Stripe.subscriptions_retrieve stripe
               (str_or (Stripe.subscription session) "") with
       | Some s =>
           if next_fault w then db w
           else match Sql.insert_subscription
                        (str_or (Stripe.metadata_userId session) "") 1
                        (Stripe.customer session)
                        (Stripe.subscription session)
                        (Stripe.status s)
                        (Some (Stripe.current_period_start s))
                        (Some (Stripe.current_period_end s))
                        (trial_end_param (Stripe.trial_end s))
                        (sql_now w) (db w) with
                | Some d => d
                | None => db w
                end
       | None => db w
       end
  else db w.
Proof.
  unfold handleCheckoutCompleted.
  destruct (truthy_str (Stripe.metadata_userId session));
    destruct (truthy_str (Stripe.subscription session)); simpl;
    try reflexivity.
  unfold_monad.
  destruct (Stripe.subscriptions_retrieve stripe _); [|reflexivity].
  simpl. destruct (next_fault w); [reflexivity|].
  now destruct (Sql.insert_subscription _ _ _ _ _ _ _ _ _ _).
Qed.

(** C2, as the code has it -- a CheckoutCompleted event for a reference
    that already has a record never overwrites or removes an existing
    record and never touches the payment ledger, but it is not a no-op:
    when the session carries a user id and a subscription id, the
    provider lookup succeeds with a status the column takes, plan 1
    exists and the INSERT goes through, one more record with the same
    reference is appended. *)
Theorem checkout_completed_duplicate (stripe : Stripe.Api)
    (session : Stripe.CheckoutSession) (w : World) (r : SubscriptionRow) :
  In r (subscriptions (db w)) ->
  stripe_subscription_id r = Stripe.subscription session ->
  (exists added,
     subscriptions (db (snd (handleCheckoutCompleted stripe session w)))
     = (subscriptions (db w) ++ added)%list)
  /\ payment_history (db (snd (handleCheckoutCompleted stripe session w)))
     = payment_history (db w)
  /\ (forall s st,
        truthy_str (Stripe.metadata_userId session) = true ->
        truthy_str (Stripe.subscription session) = true ->
        Stripe.subscriptions_retrieve stripe
          (str_or (Stripe.subscription session) "") = Some s ->
        Sql.enum_status (Stripe.status s) = Some st ->
        next_fault w = false ->
        Sql.has_plan (db w) 1 = true ->
        subscriptions (db (snd (handleCheckoutCompleted stripe session w)))
        = (subscriptions (db w) ++
           [mkSub (subscriptions_auto_increment (db w))
                  (str_or (Stripe.metadata_userId session) "") 1
                  (Stripe.customer session)
                  (stripe_subscription_id r)
                  st
                  (Some (Stripe.current_period_start s))
                  (Some (Stripe.current_period_end s))
                  false
                  (trial_end_param (Stripe.trial_end s))
                  (sql_now w) (sql_now w)])%list).
Proof.
  intros _ K. rewrite handleCheckoutCompleted_db.
  assert (Keep : forall d : Db,
             (exists added, subscriptions d
                            = (subscriptions d ++ added)%list)
             /\ payment_history d = payment_history d).
  { intros d. split; trivial. exists []. now rewrite app_nil_r. }
  split; [|split].
  - destruct (_ && _)%bool; [|apply Keep].
    destruct (Stripe.subscriptions_retrieve stripe _); [|apply Keep].
    destruct (next_fault w); [apply Keep|].
    unfold Sql.insert_subscription.
    destruct (Sql.enum_status _); [|apply Keep].
    destruct (Sql.has_plan (db w) 1); [|apply Keep].
    simpl. eauto.
  - destruct (_ && _)%bool; trivial.
    destruct (Stripe.subscriptions_retrieve stripe _); trivial.
    destruct (next_fault w); trivial.
    unfold Sql.insert_subscription.
    destruct (Sql.enum_status _); trivial.
    now destruct (Sql.has_plan (db w) 1).
  - intros s st U S R E F P. rewrite U, S, R, F. simpl.
    unfold Sql.insert_subscription. rewrite E, P. simpl. now rewrite K.
Qed.

(** A second delivery of the checkout of S1: two records for S1. *)
Lemma checkout_completed_duplicate_witness :
  map stripe_subscription_id
    (subscriptions
       (db (snd (handleCheckoutCompleted
                   (Sample.sdk (Stripe.checkout_session_completed
                                  Sample.session_S1) true)
                   Sample.session_S1
                   (Sample.world trialing (Some 200) [])))))
  = [Some "S1"; Some "S1"].
Proof.
  destruct (checkout_completed_duplicate
              (Sample.sdk (Stripe.checkout_session_completed
                             Sample.session_S1) true)
              Sample.session_S1
              (Sample.world trialing (Some 200) [])
              (Sample.row_S1 trialing (Some 200)))
    as [_ [_ A]].
  - now left.
  - reflexivity.
  - rewrite (A (Sample.snapshot_S1 StripeStatus.trialing) trialing);
      [reflexivity | reflexivity | reflexivity | reflexivity
       | reflexivity | reflexivity | reflexivity].
Defined.

(** C2, refuted as stated: a record for S1 exists, and applying
    CheckoutCompleted for S1 yields a store that differs from the prior
    one and holds a second record for S1. *)
Lemma checkout_idempotence_counterexample :
  map stripe_subscription_id
    (subscriptions (db (Sample.world trialing (Some 200) [])))
  = [Some "S1"]
  /\ Stripe.subscription Sample.session_S1 = Some "S1"
  /\ map stripe_subscription_id
       (subscriptions
          (db (snd (handleCheckoutCompleted
                      (Sample.sdk (Stripe.checkout_session_completed
                                     Sample.session_S1) true)
                      Sample.session_S1
                      (Sample.world trialing (Some 200) [])))))
     = [Some "S1"; Some "S1"]
  /\ db (snd (handleCheckoutCompleted
                (Sample.sdk (Stripe.checkout_session_completed
                               Sample.session_S1) true)
                Sample.session_S1
                (Sample.world trialing (Some 200) [])))
     <> db (Sample.world trialing (Some 200) []).
Proof.
  repeat split. discriminate.
Qed.

Lemma eq_param_server (d d' : Db) (c p : option string) :
  server d' = server d -> Sql.eq_param d' c p = Sql.eq_param d c p.
Proof.
  intros H. unfold Sql.eq_param, Sql.eq_text. now rewrite H.
Qed.

Lemma select_id_known (p : option string) (d : Db) :
  (exists r, In r (subscriptions d) /\
             Sql.eq_param d (stripe_subscription_id r) p = true) ->
  exists sid, Sql.select_id_by_ref p d = [sid] /\
              Sql.has_subscription d sid = true.
Proof.
  intros [r [Hin Hp]]. unfold Sql.select_id_by_ref, Sql.has_subscription.
  assert (Hf : In r (filter (fun r => Sql.eq_param d
                                        (stripe_subscription_id r) p)
                            (subscriptions d)))
    by (apply filter_In; auto).
  destruct (filter _ (subscriptions d)) as [|h t] eqn:E; [contradiction|].
  exists (sub_pk h). split; [reflexivity|].
  assert (Hh : In h (subscriptions d)).
  { apply (proj1 (filter_In
                    (fun r => Sql.eq_param d (stripe_subscription_id r) p)
                    h (subscriptions d))).
    rewrite E. now left. }
  apply existsb_exists. exists h. split; trivial. apply Z.eqb_refl.
Qed.

(** One delivery against a store that holds the owning subscription, with
    no storage fault pending: one payment record more. *)
Lemma handlePaymentSucceeded_appends (inv : Stripe.Invoice) (w : World) :
  faults w = [] ->
  (exists r, In r (subscriptions (db w)) /\
             Sql.eq_param (db w) (stripe_subscription_id r)
                          (Stripe.invoice_subscription inv) = true) ->
  faults (snd (handlePaymentSucceeded inv w)) = []
  /\ subscriptions (db (snd (handlePaymentSucceeded inv w)))
     = subscriptions (db w)
  /\ server (db (snd (handlePaymentSucceeded inv w))) = server (db w)
  /\ exists row,
       payment_history (db (snd (handlePaymentSucceeded inv w)))
       = (payment_history (db w) ++ [row])%list
       /\ stripe_payment_intent_id row = Stripe.payment_intent inv.
Proof.
  intros F K. destruct (select_id_known _ _ K) as [sid [S H]].
  unfold handlePaymentSucceeded. unfold_monad.
  unfold next_fault. rewrite F, S. simpl.
  unfold Sql.insert_payment. rewrite H. simpl.
  repeat split. eauto.
Qed.

Lemma payments_with_ref_snoc (p : string) (d d' : Db) (row : PaymentRow) :
  payment_history d' = (payment_history d ++ [row])%list ->
  stripe_payment_intent_id row = Some p ->
  payments_with_ref p d' = S (payments_with_ref p d).
Proof.
  intros H I. unfold payments_with_ref.
  rewrite H, filter_app, length_app. simpl.
  rewrite I. simpl. rewrite String.eqb_refl. simpl. lia.
Qed.

Lemma deliver_payments_cons (i : Stripe.Invoice) (l : list Stripe.Invoice)
    (w : World) :
  deliver_payments (i :: l) w
  = deliver_payments l (snd (handlePaymentSucceeded i w)).
Proof.
  simpl. unfold bind.
  pose proof (handlePaymentSucceeded_returns i w) as R.
  destruct (handlePaymentSucceeded i w) as [o w']. simpl in *.
  now subst o.
Qed.

(** C3, as the code has it -- payment records are not unique per
    payment reference.  With no storage fault, every PaymentSucceeded
    event of a sequence sharing a payment reference, applied against a
    store containing the owning subscription, appends one payment record:
    afterwards the ledger holds as many more records with that reference
    as events were applied.  No application raises an error. *)
Theorem payments_accumulate (p : string) (l : list Stripe.Invoice)
    (w : World) :
  faults w = [] ->
  (forall i, In i l ->
     Stripe.payment_intent i = Some p /\
     exists r, In r (subscriptions (db w)) /\
               Sql.eq_param (db w) (stripe_subscription_id r)
                            (Stripe.invoice_subscription i) = true) ->
  fst (deliver_payments l w) = Returned tt
  /\ payments_with_ref p (db (snd (deliver_payments l w)))
     = (payments_with_ref p (db w) + List.length l)%nat.
Proof.
  revert w. induction l as [|i l IH]; intros w F H.
  - simpl. split; [reflexivity | lia].
  - rewrite deliver_payments_cons.
    destruct (H i (or_introl eq_refl)) as [I K].
    destruct (handlePaymentSucceeded_appends i w F K)
      as [F' [S' [V' [row [P' I']]]]].
    destruct (IH (snd (handlePaymentSucceeded i w)) F') as [R C].
    + intros j Hj. destruct (H j (or_intror Hj)) as [Ij [r [Rj Kj]]].
      split; trivial. exists r. rewrite S'. split; trivial.
      now rewrite (eq_param_server (db w)).
    + split; trivial. rewrite C.
      rewrite (payments_with_ref_snoc p (db w) _ row P'); [|congruence].
      simpl. lia.
Qed.

(** The invoice of payment P1 delivered twice: two ledger records. *)
Lemma payments_accumulate_witness :
  payments_with_ref "P1"
    (db (snd (deliver_payments
                [Sample.invoice_P1 "S1"; Sample.invoice_P1 "S1"]
                (Sample.world active (Some 200) []))))
  = 2%nat.
Proof.
  apply (payments_accumulate "P1"
           [Sample.invoice_P1 "S1"; Sample.invoice_P1 "S1"]
           (Sample.world active (Some 200) [])).
  - reflexivity.
  - intros i [<-|[<-|[]]];
      (split; [reflexivity|]);
      exists (Sample.row_S1 active (Some 200));
      (split; [now left | reflexivity]).
Defined.

(** C3, refuted as stated: after two PaymentSucceeded events with payment
    reference P1 against a store holding their subscription S1, the
    ledger holds two records with reference P1, not one. *)
Lemma payment_uniqueness_counterexample :
  map stripe_subscription_id
    (subscriptions (db (Sample.world active (Some 200) [])))
  = [Some "S1"]
  /\ payments_with_ref "P1"
       (db (snd (deliver_payments
                   [Sample.invoice_P1 "S1"; Sample.invoice_P1 "S1"]
                   (Sample.world active (Some 200) []))))
     = 2%nat
  /\ payments_with_ref "P1"
       (db (snd (deliver_payments
                   [Sample.invoice_P1 "S1"; Sample.invoice_P1 "S1"]
                   (Sample.world active (Some 200) []))))
     <> 1%nat.
Proof.
  repeat split. discriminate.
Qed.

(* ================================================================= *)
(** ** Storage errors *)

Lemma consumed_fault_none (l : list bool) : consumed_fault l l = false.
Proof.
  unfold consumed_fault. now rewrite Nat.sub_diag.
Qed.

Lemma consumed_fault_one (l : list bool) :
  consumed_fault l (tl l) = match l with [] => false | b :: _ => b end.
Proof.
  unfold consumed_fault. destruct l as [|b t]; simpl; trivial.
  replace (match List.length t with
           | 0%nat => S (List.length t)
           | S l => (List.length t - l)%nat
           end) with 1%nat by (destruct (List.length t); lia).
  simpl. apply orb_false_r.
Qed.

Lemma consumed_fault_two (l : list bool) :
  consumed_fault l (tl (tl l)) =
  (match l with [] => false | b :: _ => b end
   || match tl l with [] => false | b :: _ => b end)%bool.
Proof.
  destruct l as [|a [|b t]].
  - reflexivity.
  - simpl. unfold consumed_fault. simpl. now rewrite orb_false_r.
  - unfold consumed_fault. cbn [tl].
    replace (List.length (a :: b :: t) - List.length t)%nat with 2%nat
      by (cbn [List.length]; lia).
    simpl. now rewrite orb_false_r.
Qed.

(** A handler made of one UPDATE: when that query throws, the tables are
    as before and the error ends on the console. *)
Lemma single_update_atomic (q : Z -> Db -> Db) (done failed : string)
    (w : World) :
  faulted w (snd (try_catch (db_update q ;;; console_log done)
                            (fun error => console_error failed) w)) = true ->
  db (snd (try_catch (db_update q ;;; console_log done)
                     (fun error => console_error failed) w)) = db w
  /\ is_console_error
       (last_console (snd (try_catch (db_update q ;;; console_log done)
                              (fun error => console_error failed) w)))
     = true.
Proof.
  unfold faulted, last_console. unfold_monad.
  destruct (next_fault w) eqn:F; simpl.
  - intros _. now rewrite last_console_snoc.
  - rewrite consumed_fault_one. unfold next_fault in F. congruence.
Qed.

Lemma handlePaymentSucceeded_atomic (inv : Stripe.Invoice) (w : World) :
  faulted w (snd (handlePaymentSucceeded inv w)) = true ->
  db (snd (handlePaymentSucceeded inv w)) = db w
  /\ is_console_error (last_console (snd (handlePaymentSucceeded inv w)))
     = true.
Proof.
  unfold handlePaymentSucceeded, faulted, last_console. unfold_monad.
  destruct (next_fault w) eqn:F; simpl.
  - intros _. now rewrite last_console_snoc.
  - destruct (Sql.select_id_by_ref _ _) as [|sid rest]; simpl.
    + rewrite consumed_fault_one. unfold next_fault in F. congruence.
    + destruct (next_fault (mkWorld _ _ _ _)) eqn:F2; simpl.
      * intros _. now rewrite last_console_snoc.
      * destruct (Sql.insert_payment _ _ _ _ _ _ _ _); simpl.
        -- rewrite consumed_fault_two.
           unfold next_fault in F, F2. simpl in F2. rewrite F, F2.
           discriminate.
        -- intros _. now rewrite last_console_snoc.
Qed.

Lemma handleCheckoutCompleted_atomic (stripe : Stripe.Api)
    (session : Stripe.CheckoutSession) (w : World) :
  faulted w (snd (handleCheckoutCompleted stripe session w)) = true ->
  db (snd (handleCheckoutCompleted stripe session w)) = db w
  /\ is_console_error
       (last_console (snd (handleCheckoutCompleted stripe session w)))
     = true.
Proof.
  unfold handleCheckoutCompleted, faulted, last_console.
  destruct (negb _ || negb _)%bool.
  - unfold_monad. simpl. now rewrite consumed_fault_none.
  - unfold_monad.
    destruct (Stripe.subscriptions_retrieve stripe _); simpl.
    + destruct (next_fault w) eqn:F; simpl.
      * intros _. now rewrite last_console_snoc.
      * destruct (Sql.insert_subscription _ _ _ _ _ _ _ _ _ _); simpl.
        -- rewrite consumed_fault_one. unfold next_fault in F. congruence.
        -- intros _. now rewrite last_console_snoc.
    + now rewrite consumed_fault_none.
Qed.

Lemma handleSubscriptionUpdated_atomic (s : Stripe.Subscription)
    (w : World) :
  faulted w (snd (handleSubscriptionUpdated s w)) = true ->
  db (snd (handleSubscriptionUpdated s w)) = db w
  /\ is_console_error (last_console (snd (handleSubscriptionUpdated s w)))
     = true.
Proof.
  unfold handleSubscriptionUpdated, faulted, last_console. unfold_monad.
  destruct (next_fault w) eqn:F; simpl.
  - intros _. now rewrite last_console_snoc.
  - destruct (Sql.update_snapshot _ _ _ _ _ _ _); simpl.
    + rewrite consumed_fault_one. unfold next_fault in F. congruence.
    + intros _. now rewrite last_console_snoc.
Qed.

Lemma dispatch_atomic (stripe : Stripe.Api) (e : Stripe.Event) (w : World) :
  faulted w (snd (dispatch stripe e w)) = true ->
  db (snd (dispatch stripe e w)) = db w
  /\ is_console_error (last_console (snd (dispatch stripe e w))) = true.
Proof.
  destruct e; simpl.
  - apply handleCheckoutCompleted_atomic.
  - apply handleSubscriptionUpdated_atomic.
  - apply single_update_atomic.
  - apply handlePaymentSucceeded_atomic.
  - apply single_update_atomic.
  - unfold faulted, console_log. simpl. now rewrite consumed_fault_none.
Qed.

(** C4, as the code has it -- storage errors are caught by every handler.
    For a verified event, whenever a query issued while applying it
    throws, the tables are left as they were and the error is written to
    the console; the webhook still returns [{received: true}], so the
    provider is told of success and nothing asks it to deliver again. *)
Theorem storage_errors_are_swallowed (stripe : Stripe.Api)
    (secret : option string) (body signature : string)
    (e : Stripe.Event) (w : World) :
  Stripe.webhooks_constructEvent stripe body signature (str_or secret "")
  = inr e ->
  fst (handleStripeWebhook stripe secret body signature w)
  = Returned (mkReceived true)
  /\ (faulted w (snd (handleStripeWebhook stripe secret body signature w))
      = true ->
      db (snd (handleStripeWebhook stripe secret body signature w)) = db w
      /\ is_console_error
           (last_console
              (snd (handleStripeWebhook stripe secret body signature w)))
         = true).
Proof.
  intros V. rewrite (handleStripeWebhook_verified _ _ _ _ _ _ V).
  split; [reflexivity|]. cbn [snd].
  apply (dispatch_atomic stripe e (snd (console_log _ w))).
Qed.

(** A SubscriptionUpdated event for S1 while the store is down. *)
Lemma storage_errors_are_swallowed_witness :
  fst (handleStripeWebhook
         (Sample.sdk (Stripe.customer_subscription_updated
                        (Sample.snapshot_S1 StripeStatus.past_due)) true)
         None "{}" "good" (Sample.world active (Some 200) [true]))
  = Returned (mkReceived true)
  /\ db (snd (handleStripeWebhook
                (Sample.sdk (Stripe.customer_subscription_updated
                               (Sample.snapshot_S1 StripeStatus.past_due)) true)
                None "{}" "good" (Sample.world active (Some 200) [true])))
     = Sample.store active (Some 200).
Proof.
  destruct (storage_errors_are_swallowed
              (Sample.sdk (Stripe.customer_subscription_updated
                             (Sample.snapshot_S1 StripeStatus.past_due)) true)
              None "{}" "good"
              (Stripe.customer_subscription_updated
                 (Sample.snapshot_S1 StripeStatus.past_due))
              (Sample.world active (Some 200) [true]) eq_refl)
    as [A B].
  split; [exact A|].
  now destruct (B eq_refl) as [D _].
Defined.

(** C4, refuted as stated: the UPDATE of a SubscriptionUpdated event
    throws, and the webhook returns [{received: true}] instead of
    failing; the event, which is no duplicate, is lost. *)
Lemma failure_propagation_counterexample :
  faulted (Sample.world active (Some 200) [true])
          (snd (handleStripeWebhook
                  (Sample.sdk (Stripe.customer_subscription_updated
                               (Sample.snapshot_S1 StripeStatus.past_due)) true)
                  None "{}" "good"
                  (Sample.world active (Some 200) [true])))
  = true
  /\ fst (handleStripeWebhook
            (Sample.sdk (Stripe.customer_subscription_updated
                           (Sample.snapshot_S1 StripeStatus.past_due)) true)
            None "{}" "good" (Sample.world active (Some 200) [true]))
     = Returned (mkReceived true)
  /\ (forall x,
        fst (handleStripeWebhook
               (Sample.sdk (Stripe.customer_subscription_updated
                              (Sample.snapshot_S1 StripeStatus.past_due)) true)
               None "{}" "good" (Sample.world active (Some 200) [true]))
        <> Thrown x).
Proof.
  repeat split. discriminate.
Qed.

(* ================================================================= *)
(** ** The command surface *)

Lemma hasActiveSubscription_world (uid : string) (w : World) :
  exists v k, hasActiveSubscription uid w
              = (Returned v, mkWorld (db w) (tl (faults w)) (clock w) k).
Proof.
  unfold hasActiveSubscription. unfold_monad.
  destruct (next_fault w); [simpl; eauto|].
  destruct (map entitlement_columns _) as [|[[? ?] ?] ?]; simpl; eauto.
Qed.

(** What the command surface learns from [getSubscriptionStatus]: it
    always gets an answer, the tables are not written, and the two
    provider references are those of the latest record when the store
    answered. *)
Lemma getSubscriptionStatus_read (uid : string) (w : World) :
  exists sv k fl,
    getSubscriptionStatus uid w
    = (Returned sv, mkWorld (db w) fl (clock w) k)
    /\ stripeCustomerId sv = customer_ref uid w
    /\ stripeSubscriptionId sv = subscription_ref uid w
    /\ (next_fault w = false ->
        latest_subscription uid (db w) <> None ->
        fl = after_status_read w).
Proof.
  unfold getSubscriptionStatus, customer_ref, subscription_ref,
         after_status_read.
  unfold db_select, try_catch, bind at 1.
  destruct (next_fault w) eqn:F.
  - unfold_monad. simpl. do 3 eexists.
    split; [reflexivity|]. repeat split. discriminate.
  - unfold Sql.select_latest_with_plan. rewrite select_latest_hd.
    destruct (latest_subscription uid (db w)) as [r|] eqn:L; simpl.
    + unfold bind.
      destruct (hasActiveSubscription_world uid (consume_fault w))
        as [v [k H]].
      rewrite H. unfold ret. simpl. do 3 eexists.
      split; [reflexivity|]. repeat split.
    + unfold ret. simpl. do 3 eexists.
      split; [reflexivity|]. repeat split. congruence.
Qed.

Lemma requireAuth_authenticated (uid : string) (w : World) :
  uid <> "" -> requireAuth (Some uid) w = (Returned uid, w).
Proof.
  intros H. unfold requireAuth.
  apply String.eqb_neq in H. now rewrite H.
Qed.

Lemma createPortal_run (stripe : Stripe.Api) (uid : string) (w : World) :
  uid <> "" ->
  fst (createPortal stripe uid w) =
  (if truthy_str (customer_ref uid w)
   then match Stripe.billingPortal_sessions_create stripe
                (str_or (customer_ref uid w) "") with
        | Some u => Returned (mkUrl u)
        | None => Thrown (TRPCError INTERNAL_SERVER_ERROR)
        end
   else Thrown (TRPCError NOT_FOUND))
  /\ (truthy_str (customer_ref uid w) = false ->
      db (snd (createPortal stripe uid w)) = db w).
Proof.
  intros A. unfold createPortal, bind.
  rewrite (requireAuth_authenticated uid w A).
  destruct (getSubscriptionStatus_read uid w) as [sv [k [fl [H [C _]]]]].
  rewrite H, C.
  destruct (truthy_str (customer_ref uid w)); simpl.
  - split; [|discriminate].
    unfold createPortalSession. unfold_monad.
    now destruct (Stripe.billingPortal_sessions_create stripe _).
  - auto.
Qed.

(** [cancel] and [reactivate] differ in the flag they send and store. *)
Lemma toggle_run (stripe : Stripe.Api) (flag : bool) (failed : string)
    (s : string) (w : World) :
  fst (try_catch
         (stripe_await_ok (Stripe.subscriptions_update stripe s flag) ;;;
          db_update (fun now =>
            Sql.update_where (Some s)
                             (Sql.with_cancel_at_period_end flag now)) ;;;
          ret (mkSuccess true))
         (fun error =>
            console_error failed ;;; throw (TRPCError INTERNAL_SERVER_ERROR))
         w)
  = if (Stripe.subscriptions_update stripe s flag && negb (next_fault w))%bool
    then Returned (mkSuccess true)
    else Thrown (TRPCError INTERNAL_SERVER_ERROR).
Proof.
  unfold_monad.
  destruct (Stripe.subscriptions_update stripe s flag); simpl; trivial.
  now destruct (next_fault w).
Qed.

Lemma cancel_run (stripe : Stripe.Api) (uid : string) (w : World) :
  uid <> "" ->
  (truthy_str (subscription_ref uid w) = false ->
   fst (cancel stripe uid w) = Thrown (TRPCError NOT_FOUND) /\
   db (snd (cancel stripe uid w)) = db w)
  /\ (truthy_str (subscription_ref uid w) = true ->
      fst (cancel stripe uid w) =
      if (Stripe.subscriptions_update stripe
            (str_or (subscription_ref uid w) "") true
          && negb (mirror_write_fails w))%bool
      then Returned (mkSuccess true)
      else Thrown (TRPCError INTERNAL_SERVER_ERROR)).
Proof.
  intros A. unfold cancel, bind.
  rewrite (requireAuth_authenticated uid w A).
  destruct (getSubscriptionStatus_read uid w) as [sv [k [fl [H [_ [S L]]]]]].
  rewrite H, S. split; intros T; rewrite T; simpl; [auto|].
  unfold cancelSubscription. rewrite toggle_run.
  unfold next_fault, mirror_write_fails. simpl.
  rewrite L; trivial.
  - unfold subscription_ref in T. now destruct (next_fault w).
  - unfold subscription_ref in T. destruct (next_fault w); [discriminate|].
    now destruct (latest_subscription uid (db w)).
Qed.

Lemma reactivate_run (stripe : Stripe.Api) (uid : string) (w : World) :
  uid <> "" ->
  (truthy_str (subscription_ref uid w) = false ->
   fst (reactivate stripe uid w) = Thrown (TRPCError NOT_FOUND) /\
   db (snd (reactivate stripe uid w)) = db w)
  /\ (truthy_str (subscription_ref uid w) = true ->
      fst (reactivate stripe uid w) =
      if (Stripe.subscriptions_update stripe
            (str_or (subscription_ref uid w) "") false
          && negb (mirror_write_fails w))%bool
      then Returned (mkSuccess true)
      else Thrown (TRPCError INTERNAL_SERVER_ERROR)).
Proof.
  intros A. unfold reactivate, bind.
  rewrite (requireAuth_authenticated uid w A).
  destruct (getSubscriptionStatus_read uid w) as [sv [k [fl [H [_ [S L]]]]]].
  rewrite H, S. split; intros T; rewrite T; simpl; [auto|].
  unfold reactivateSubscription. rewrite toggle_run.
  unfold next_fault, mirror_write_fails. simpl.
  rewrite L; trivial.
  - unfold subscription_ref in T. now destruct (next_fault w).
  - unfold subscription_ref in T. destruct (next_fault w); [discriminate|].
    now destruct (latest_subscription uid (db w)).
Qed.

(** C9, as the code has it -- outcomes of the command surface for an
    authenticated user.  create-portal throws NOT_FOUND, leaving the
    tables alone, when no provider customer reference is found for the
    user; cancel and reactivate throw NOT_FOUND, leaving the tables alone,
    when no provider subscription reference is found.  Otherwise each
    returns success provided the provider call succeeds and, for cancel
    and reactivate, the local UPDATE succeeds; when one of these fails the
    operation throws INTERNAL_SERVER_ERROR. *)
Theorem command_surface_outcomes (stripe : Stripe.Api) (uid : string)
    (w : World) :
  uid <> "" ->
  (truthy_str (customer_ref uid w) = false ->
   fst (createPortal stripe uid w) = Thrown (TRPCError NOT_FOUND) /\
   db (snd (createPortal stripe uid w)) = db w)
  /\ (truthy_str (subscription_ref uid w) = false ->
      fst (cancel stripe uid w) = Thrown (TRPCError NOT_FOUND) /\
      db (snd (cancel stripe uid w)) = db w /\
      fst (reactivate stripe uid w) = Thrown (TRPCError NOT_FOUND) /\
      db (snd (reactivate stripe uid w)) = db w)
  /\ (truthy_str (customer_ref uid w) = true ->
      fst (createPortal stripe uid w) =
      match Stripe.billingPortal_sessions_create stripe
              (str_or (customer_ref uid w) "") with
      | Some u => Returned (mkUrl u)
      | None => Thrown (TRPCError INTERNAL_SERVER_ERROR)
      end)
  /\ (truthy_str (subscription_ref uid w) = true ->
      fst (cancel stripe uid w) =
      (if (Stripe.subscriptions_update stripe
             (str_or (subscription_ref uid w) "") true
           && negb (mirror_write_fails w))%bool
       then Returned (mkSuccess true)
       else Thrown (TRPCError INTERNAL_SERVER_ERROR)) /\
      fst (reactivate stripe uid w) =
      (if (Stripe.subscriptions_update stripe
             (str_or (subscription_ref uid w) "") false
           && negb (mirror_write_fails w))%bool
       then Returned (mkSuccess true)
       else Thrown (TRPCError INTERNAL_SERVER_ERROR))).
Proof.
  intros A.
  destruct (createPortal_run stripe uid w A) as [P1 P2].
  destruct (cancel_run stripe uid w A) as [C1 C2].
  destruct (reactivate_run stripe uid w A) as [R1 R2].
  split; [|split; [|split]].
  - intros T. split; [|now apply P2]. now rewrite P1, T.
  - intros T. destruct (C1 T). destruct (R1 T). auto.
  - intros T. now rewrite P1, T.
  - intros T. split; [now apply C2 | now apply R2].
Qed.

(** User 42 before any provider identifier is known: NOT_FOUND; and with
    the identifiers of S1 and the provider up: success. *)
Lemma command_surface_outcomes_witness :
  fst (createPortal (Sample.sdk (Stripe.other "ping") true) "42"
                    Sample.unlinked_world)
  = Thrown (TRPCError NOT_FOUND)
  /\ fst (cancel (Sample.sdk (Stripe.other "ping") true) "42"
                 (Sample.world active (Some 200) []))
     = Returned (mkSuccess true).
Proof.
  split.
  - apply (command_surface_outcomes (Sample.sdk (Stripe.other "ping") true)
             "42" Sample.unlinked_world); [discriminate | reflexivity].
  - destruct (command_surface_outcomes
                (Sample.sdk (Stripe.other "ping") true) "42"
                (Sample.world active (Some 200) []))
      as [_ [_ [_ S]]]; [discriminate|].
    destruct (S eq_refl) as [C _]. exact C.
Defined.

(** C9, refuted as stated: user 42 has both provider references, yet with
    the provider unreachable create-portal, cancel and reactivate end
    neither in success nor in NOT_FOUND; and with the provider reachable
    but the local UPDATE failing, cancel ends the same way. *)
Lemma command_surface_counterexample :
  customer_ref "42" (Sample.world active (Some 200) []) = Some "cus_1"
  /\ subscription_ref "42" (Sample.world active (Some 200) []) = Some "S1"
  /\ fst (createPortal (Sample.sdk (Stripe.other "ping") false) "42"
                       (Sample.world active (Some 200) []))
     = Thrown (TRPCError INTERNAL_SERVER_ERROR)
  /\ fst (cancel (Sample.sdk (Stripe.other "ping") false) "42"
                 (Sample.world active (Some 200) []))
     = Thrown (TRPCError INTERNAL_SERVER_ERROR)
  /\ fst (reactivate (Sample.sdk (Stripe.other "ping") false) "42"
                     (Sample.world active (Some 200) []))
     = Thrown (TRPCError INTERNAL_SERVER_ERROR)
  /\ fst (cancel (Sample.sdk (Stripe.other "ping") true) "42"
                 (Sample.world active (Some 200) [false; false; true]))
     = Thrown (TRPCError INTERNAL_SERVER_ERROR).
Proof.
  repeat split.
Qed.

(* ================================================================= *)
(** ** The latest record under the UPDATEs of the code *)

Section KeyPreserving.

Variable g : SubscriptionRow -> SubscriptionRow.
Hypothesis g_created_at : forall r, created_at (g r) = created_at r.
Hypothesis g_user_id : forall r, user_id (g r) = user_id r.
Hypothesis g_sub_pk : forall r, sub_pk (g r) = sub_pk r.

Lemma insert_desc_map (tie : Z -> Z -> bool) (r : SubscriptionRow)
    (l : list SubscriptionRow) :
  Sql.insert_desc tie (g r) (map g l) = map g (Sql.insert_desc tie r l).
Proof.
  induction l as [|h t IH]; simpl; trivial.
  unfold Sql.comes_before. rewrite !g_created_at, !g_sub_pk.
  destruct (_ || _)%bool; simpl; trivial.
  now rewrite IH.
Qed.

Lemma order_by_map (tie : Z -> Z -> bool) (l : list SubscriptionRow) :
  Sql.order_by_created_at_desc tie (map g l)
  = map g (Sql.order_by_created_at_desc tie l).
Proof.
  unfold Sql.order_by_created_at_desc.
  induction l as [|h t IH]; simpl; trivial.
  rewrite IH. apply insert_desc_map.
Qed.

Lemma filter_user_map (d : Db) (uid : string) (l : list SubscriptionRow) :
  filter (fun r => Sql.eq_text d (user_id r) uid) (map g l)
  = map g (filter (fun r => Sql.eq_text d (user_id r) uid) l).
Proof.
  induction l as [|h t IH]; simpl; trivial.
  rewrite g_user_id.
  destruct (Sql.eq_text d (user_id h) uid); simpl; now rewrite IH.
Qed.

Lemma latest_subscription_map (uid : string) (d d' : Db) :
  server d' = server d ->
  subscriptions d' = map g (subscriptions d) ->
  latest_subscription uid d' = option_map g (latest_subscription uid d).
Proof.
  intros V H. unfold latest_subscription, Sql.select_latest.
  rewrite H, V.
  replace (filter (fun r => Sql.eq_text d' (user_id r) uid)
                  (map g (subscriptions d)))
    with (filter (fun r => Sql.eq_text d (user_id r) uid)
                 (map g (subscriptions d)))
    by (apply filter_ext; intros r; unfold Sql.eq_text; now rewrite V).
  rewrite filter_user_map, order_by_map.
  now destruct (Sql.order_by_created_at_desc _ _).
Qed.

End KeyPreserving.

Lemma latest_subscription_update (p : option string)
    (set : SubscriptionRow -> SubscriptionRow) (uid : string) (d : Db) :
  (forall r, identity_columns (set r) = identity_columns r) ->
  latest_subscription uid (Sql.update_where p set d)
  = option_map (fun r => if Sql.eq_param d (stripe_subscription_id r) p
                         then set r else r)
               (latest_subscription uid d).
Proof.
  intros I. apply latest_subscription_map; try reflexivity; intros r;
    destruct (Sql.eq_param _ _ _); trivial;
    specialize (I r); unfold identity_columns in I; congruence.
Qed.

Lemma with_status_identity (st : SubscriptionStatus) (now : Z)
    (r : SubscriptionRow) :
  identity_columns (Sql.with_status st now r) = identity_columns r.
Proof. reflexivity. Qed.

Lemma with_snapshot_identity (st : SubscriptionStatus) (ps pe : option Z)
    (cape : bool) (now : Z) (r : SubscriptionRow) :
  identity_columns (Sql.with_snapshot st ps pe cape now r)
  = identity_columns r.
Proof. reflexivity. Qed.

Lemma with_cancel_at_period_end_identity (cape : bool) (now : Z)
    (r : SubscriptionRow) :
  identity_columns (Sql.with_cancel_at_period_end cape now r)
  = identity_columns r.
Proof. reflexivity. Qed.

(** The entitlement answer in a world whose store answers. *)
Lemma hasActiveSubscription_answer (uid : string) (w : World) :
  next_fault w = false ->
  fst (hasActiveSubscription uid w) =
  Returned
    match latest_subscription uid (db w) with
    | None => JBool false
    | Some r => js_and (JBool (includes_active_trialing (status r)))
                       (isNotExpired (Schema.current_period_end r) (clock w))
    end.
Proof.
  intros F. now rewrite hasActiveSubscription_run, F.
Qed.

(** X1 -- Revocation.  Once a SubscriptionCanceled event, or a
    PaymentFailed event, for the reference of a user's latest record has
    been applied with a successful UPDATE, [hasActiveSubscription] answers
    [false] for that user in every later world holding the resulting
    tables, whatever the period end of the record and whatever the
    clock. *)
Theorem status_change_revokes_access (uid : string) (w : World)
    (r : SubscriptionRow) (ref : string) :
  next_fault w = false ->
  latest_subscription uid (db w) = Some r ->
  stripe_subscription_id r = Some ref ->
  (forall (s : Stripe.Subscription) (w' : World),
     Stripe.id s = ref ->
     db w' = db (snd (handleSubscriptionCanceled s w)) ->
     fst (hasActiveSubscription uid w') = Returned (JBool false))
  /\ (forall (inv : Stripe.Invoice) (w' : World),
        Stripe.invoice_subscription inv = Some ref ->
        db w' = db (snd (handlePaymentFailed inv w)) ->
        fst (hasActiveSubscription uid w') = Returned (JBool false)).
Proof.
  intros F L K. split.
  - intros s w' I D. rewrite hasActiveSubscription_run, D.
    destruct (next_fault w'); trivial.
    rewrite handleSubscriptionCanceled_db, F.
    rewrite latest_subscription_update by apply with_status_identity.
    rewrite L. simpl. now rewrite K, I, eq_param_refl.
  - intros inv w' I D. rewrite hasActiveSubscription_run, D.
    destruct (next_fault w'); trivial.
    rewrite handlePaymentFailed_db, F.
    rewrite latest_subscription_update by apply with_status_identity.
    rewrite L. simpl. now rewrite K, I, eq_param_refl.
Qed.

(** An active record of S1 that is paid until second 200: at second 150 a
    failed payment already closes the door. *)
Lemma status_change_revokes_access_witness :
  fst (hasActiveSubscription "42" (Sample.world active (Some 200) []))
  = Returned (JBool true)
  /\ fst (hasActiveSubscription "42"
            (snd (handlePaymentFailed (Sample.invoice_P1 "S1")
                    (Sample.world active (Some 200) []))))
     = Returned (JBool false).
Proof.
  split; [reflexivity|].
  destruct (status_change_revokes_access "42"
              (Sample.world active (Some 200) [])
              (Sample.row_S1 active (Some 200)) "S1")
    as [_ P]; [reflexivity | reflexivity | reflexivity |].
  apply (P (Sample.invoice_P1 "S1")); reflexivity.
Defined.

(* ================================================================= *)
(** ** The local mirror write of cancel and reactivate *)

Lemma toggle_db (stripe : Stripe.Api) (flag : bool) (failed : string)
    (s : string) (w : World) :
  db (snd (try_catch
             (stripe_await_ok (Stripe.subscriptions_update stripe s flag) ;;;
              db_update (fun now =>
                Sql.update_where (Some s)
                                 (Sql.with_cancel_at_period_end flag now)) ;;;
              ret (mkSuccess true))
             (fun error =>
                console_error failed ;;;
                throw (TRPCError INTERNAL_SERVER_ERROR))
             w))
  = if (Stripe.subscriptions_update stripe s flag && negb (next_fault w))%bool
    then Sql.update_where (Some s)
           (Sql.with_cancel_at_period_end flag (sql_now w)) (db w)
    else db w.
Proof.
  unfold_monad.
  destruct (Stripe.subscriptions_update stripe s flag); simpl; trivial.
  now destruct (next_fault w).
Qed.

Lemma requireAuth_empty (w : World) :
  requireAuth (Some "") w = (Thrown (TRPCError UNAUTHORIZED), w).
Proof. reflexivity. Qed.

(** The outcome and the tables after [cancel], case by case. *)
Lemma cancel_cases (stripe : Stripe.Api) (uid : string) (w : World) :
  (fst (cancel stripe uid w) = Returned (mkSuccess true) /\
   exists s, subscription_ref uid w = Some s /\
             db (snd (cancel stripe uid w))
             = Sql.update_where (Some s)
                 (Sql.with_cancel_at_period_end true (sql_now w)) (db w))
  \/ ((exists c, fst (cancel stripe uid w) = Thrown (TRPCError c)) /\
      db (snd (cancel stripe uid w)) = db w).
Proof.
  destruct (String.eqb uid "") eqn:E.
  - apply String.eqb_eq in E. subst uid. right.
    unfold cancel, bind. rewrite requireAuth_empty. simpl. eauto.
  - apply String.eqb_neq in E. unfold cancel, bind.
    rewrite (requireAuth_authenticated uid w E).
    destruct (getSubscriptionStatus_read uid w)
      as [sv [k [fl [H [_ [S L]]]]]].
    rewrite H, S.
    destruct (truthy_str (subscription_ref uid w)) eqn:T; simpl;
      [|right; eauto].
    assert (R : exists s, subscription_ref uid w = Some s)
      by (destruct (subscription_ref uid w); [eauto | discriminate]).
    destruct R as [s R]. rewrite R in *. simpl in T.
    apply negb_true_iff in T. simpl. rewrite T.
    unfold cancelSubscription. rewrite toggle_run, toggle_db.
    destruct (_ && _)%bool; [left | right; eauto].
    split; trivial. exists s. split; trivial.
Qed.

Lemma reactivate_cases (stripe : Stripe.Api) (uid : string) (w : World) :
  (fst (reactivate stripe uid w) = Returned (mkSuccess true) /\
   exists s, subscription_ref uid w = Some s /\
             db (snd (reactivate stripe uid w))
             = Sql.update_where (Some s)
                 (Sql.with_cancel_at_period_end false (sql_now w)) (db w))
  \/ ((exists c, fst (reactivate stripe uid w) = Thrown (TRPCError c)) /\
      db (snd (reactivate stripe uid w)) = db w).
Proof.
  destruct (String.eqb uid "") eqn:E.
  - apply String.eqb_eq in E. subst uid. right.
    unfold reactivate, bind. rewrite requireAuth_empty. simpl. eauto.
  - apply String.eqb_neq in E. unfold reactivate, bind.
    rewrite (requireAuth_authenticated uid w E).
    destruct (getSubscriptionStatus_read uid w)
      as [sv [k [fl [H [_ [S L]]]]]].
    rewrite H, S.
    destruct (truthy_str (subscription_ref uid w)) eqn:T; simpl;
      [|right; eauto].
    assert (R : exists s, subscription_ref uid w = Some s)
      by (destruct (subscription_ref uid w); [eauto | discriminate]).
    destruct R as [s R]. rewrite R in *. simpl in T.
    apply negb_true_iff in T. simpl. rewrite T.
    unfold reactivateSubscription. rewrite toggle_run, toggle_db.
    destruct (_ && _)%bool; [left | right; eauto].
    split; trivial. exists s. split; trivial.
Qed.

(** X2 -- All or nothing on the command surface.  [cancel] either returns
    success, and then the tables are the old ones with
    [cancel_at_period_end] set (and [updated_at] refreshed) on exactly the
    records that carry the subscription reference of the user's latest
    record, or it throws a typed error and the tables are untouched;
    [reactivate] likewise, clearing the flag. *)
Theorem cancel_and_reactivate_all_or_nothing (stripe : Stripe.Api)
    (uid : string) (w : World) :
  ((fst (cancel stripe uid w) = Returned (mkSuccess true) /\
    exists s, subscription_ref uid w = Some s /\
              db (snd (cancel stripe uid w))
              = Sql.update_where (Some s)
                  (Sql.with_cancel_at_period_end true (sql_now w)) (db w))
   \/ ((exists c, fst (cancel stripe uid w) = Thrown (TRPCError c)) /\
       db (snd (cancel stripe uid w)) = db w))
  /\ ((fst (reactivate stripe uid w) = Returned (mkSuccess true) /\
       exists s, subscription_ref uid w = Some s /\
                 db (snd (reactivate stripe uid w))
                 = Sql.update_where (Some s)
                     (Sql.with_cancel_at_period_end false (sql_now w))
                     (db w))
      \/ ((exists c, fst (reactivate stripe uid w) = Thrown (TRPCError c)) /\
          db (snd (reactivate stripe uid w)) = db w)).
Proof.
  split; [apply cancel_cases | apply reactivate_cases].
Qed.

(** X3 -- Cancelling does not end access.  Whatever [cancel] or
    [reactivate] did, [hasActiveSubscription] answers for every user, in
    every later world holding the resulting tables, what it would have
    answered on the tables as they were before. *)
Theorem cancel_and_reactivate_keep_entitlement (stripe : Stripe.Api)
    (uid u : string) (w w' : World) :
  db w' = db (snd (cancel stripe uid w)) \/
  db w' = db (snd (reactivate stripe uid w)) ->
  fst (hasActiveSubscription u w')
  = fst (hasActiveSubscription u (with_db (db w) w')).
Proof.
  intros D. rewrite !hasActiveSubscription_run.
  change (next_fault (with_db (db w) w')) with (next_fault w').
  change (clock (with_db (db w) w')) with (clock w').
  change (db (with_db (db w) w')) with (db w).
  destruct (next_fault w'); trivial.
  assert (E : db w' = db w \/
              exists s flag now,
                db w' = Sql.update_where (Some s)
                          (Sql.with_cancel_at_period_end flag now) (db w)).
  { destruct D as [D|D]; rewrite D.
    - destruct (cancel_cases stripe uid w) as [[_ [s [_ H]]]|[_ H]];
        rewrite H; eauto.
    - destruct (reactivate_cases stripe uid w) as [[_ [s [_ H]]]|[_ H]];
        rewrite H; eauto. }
  destruct E as [E|[s [flag [now E]]]]; rewrite E; trivial.
  rewrite latest_subscription_update
    by apply with_cancel_at_period_end_identity.
  destruct (latest_subscription u (db w)) as [r|]; simpl; trivial.
  now destruct (Sql.eq_param _ _ _).
Qed.

(** User 42 cancels subscription S1 and is still entitled afterwards. *)
Lemma cancel_and_reactivate_keep_entitlement_witness :
  fst (cancel (Sample.sdk (Stripe.other "ping") true) "42"
              (Sample.world active (Some 200) []))
  = Returned (mkSuccess true)
  /\ fst (hasActiveSubscription "42"
            (snd (cancel (Sample.sdk (Stripe.other "ping") true) "42"
                         (Sample.world active (Some 200) []))))
     = Returned (JBool true).
Proof.
  split; [reflexivity|].
  rewrite (cancel_and_reactivate_keep_entitlement
             (Sample.sdk (Stripe.other "ping") true) "42" "42"
             (Sample.world active (Some 200) [])).
  - reflexivity.
  - now left.
Defined.

(* ================================================================= *)
(** ** From checkout to entitlement *)

Lemma order_by_snoc (tie : Z -> Z -> bool) (l : list SubscriptionRow)
    (r : SubscriptionRow) :
  (forall x, In x l -> created_at x < created_at r) ->
  hd_error (Sql.order_by_created_at_desc tie (l ++ [r])) = Some r.
Proof.
  unfold Sql.order_by_created_at_desc. rewrite fold_right_app. simpl.
  intros H.
  assert (G : exists t, fold_right (Sql.insert_desc tie) [r] l = r :: t).
  { induction l as [|h l IH]; simpl; [eauto|].
    destruct IH as [t IH]; [intros x Hx; apply H; now right|].
    rewrite IH. simpl.
    assert (C : Sql.comes_before tie h r = false).
    { specialize (H h (or_introl eq_refl)). unfold Sql.comes_before.
      apply orb_false_iff. split; [apply Z.ltb_ge; lia|].
      apply andb_false_iff. left. apply Z.eqb_neq. lia. }
    rewrite C. eauto. }
  destruct G as [t G]. now rewrite G.
Qed.

Lemma latest_subscription_snoc (uid : string) (d d' : Db)
    (r : SubscriptionRow) :
  server d' = server d ->
  subscriptions d' = (subscriptions d ++ [r])%list ->
  user_id r = uid ->
  (forall x, In x (subscriptions d) ->
             Sql.eq_text d (user_id x) uid = true ->
             created_at x < created_at r) ->
  latest_subscription uid d' = Some r.
Proof.
  intros V S U H. unfold latest_subscription, Sql.select_latest.
  rewrite S, filter_app. simpl.
  rewrite U, eq_text_refl.
  pose proof (order_by_snoc (tie_break (server d'))
                (filter (fun r => Sql.eq_text d' (user_id r) uid)
                        (subscriptions d)) r) as O.
  destruct (Sql.order_by_created_at_desc _ _) as [|h t].
  - discriminate O.
    intros x Hx. apply filter_In in Hx as [Hx Hu].
    apply H; trivial. unfold Sql.eq_text in *. now rewrite <- V.
  - simpl in *. apply O.
    intros x Hx. apply filter_In in Hx as [Hx Hu].
    apply H; trivial. unfold Sql.eq_text in *. now rewrite <- V.
Qed.

Lemma str_or_some (s : string) : s <> "" -> str_or (Some s) "" = s.
Proof.
  intros H. simpl. apply String.eqb_neq in H. now rewrite H.
Qed.

Lemma truthy_str_nonempty (s : string) :
  s <> "" -> truthy_str (Some s) = true.
Proof.
  intros H. simpl. apply String.eqb_neq in H. now rewrite H.
Qed.

(** X4 -- From checkout to entitlement.  When a CheckoutCompleted event
    names a user and a subscription, the provider returns the
    subscription with a status the column takes, plan 1 exists, the
    INSERT goes through and every record that [WHERE user_id = ?] finds
    for the user was created in an earlier second, then in every later
    world holding the resulting tables whose store answers, the user's
    latest record is the one just written, however the server breaks
    ties: [hasActiveSubscription] is [true] exactly when the provider
    status is active or trialing and the provider period end is still
    ahead, and the references the command surface reads are those of the
    session. *)
Theorem checkout_grants_access (stripe : Stripe.Api)
    (session : Stripe.CheckoutSession) (s : Stripe.Subscription)
    (st : SubscriptionStatus) (uid sid : string) (w w' : World) :
  Stripe.metadata_userId session = Some uid -> uid <> "" ->
  Stripe.subscription session = Some sid -> sid <> "" ->
  Stripe.subscriptions_retrieve stripe sid = Some s ->
  Sql.enum_status (Stripe.status s) = Some st ->
  next_fault w = false ->
  Sql.has_plan (db w) 1 = true ->
  (forall r, In r (subscriptions (db w)) ->
             Sql.eq_text (db w) (user_id r) uid = true ->
             created_at r < sql_now w) ->
  db w' = db (snd (handleCheckoutCompleted stripe session w)) ->
  next_fault w' = false ->
  fst (hasActiveSubscription uid w')
  = Returned (JBool (includes_active_trialing st
                     && (clock w' <? Stripe.current_period_end s * 1000)))
  /\ customer_ref uid w' = Stripe.customer session
  /\ subscription_ref uid w' = Some sid.
Proof.
  intros U Un S Sn R E F P Old D F'.
  assert (D' : db w'
               = mkDb (server (db w)) (subscription_plans (db w))
                   (subscriptions (db w) ++
                    [mkSub (subscriptions_auto_increment (db w)) uid 1
                           (Stripe.customer session) (Some sid) st
                           (Some (Stripe.current_period_start s))
                           (Some (Stripe.current_period_end s))
                           false
                           (trial_end_param (Stripe.trial_end s))
                           (sql_now w) (sql_now w)])
                   (subscriptions_auto_increment (db w) + 1)
                   (payment_history (db w))
                   (payment_history_auto_increment (db w))).
  { rewrite D, handleCheckoutCompleted_db, U, S.
    rewrite !truthy_str_nonempty, !str_or_some, R, F by trivial.
    simpl. unfold Sql.insert_subscription. now rewrite E, P. }
  assert (L : latest_subscription uid (db w')
              = Some (mkSub (subscriptions_auto_increment (db w)) uid 1
                            (Stripe.customer session) (Some sid) st
                            (Some (Stripe.current_period_start s))
                            (Some (Stripe.current_period_end s))
                            false
                            (trial_end_param (Stripe.trial_end s))
                            (sql_now w) (sql_now w))).
  { apply (latest_subscription_snoc uid (db w)); trivial;
      now rewrite D'. }
  unfold customer_ref, subscription_ref.
  rewrite hasActiveSubscription_answer, F', L by trivial. simpl.
  repeat split.
  now destruct (includes_active_trialing st).
Qed.

(** User 42 checks out subscription S1 on an empty store and the provider
    reports a trial that ends at second 300. *)
Lemma checkout_grants_access_witness :
  fst (hasActiveSubscription "42"
         (snd (handleCheckoutCompleted
                 (Sample.sdk (Stripe.other "ping") true)
                 Sample.session_S1 Sample.empty_world)))
  = Returned (JBool true).
Proof.
  apply (checkout_grants_access
           (Sample.sdk (Stripe.other "ping") true) Sample.session_S1
           (Sample.snapshot_S1 StripeStatus.trialing) trialing
           "42" "S1" Sample.empty_world
           (snd (handleCheckoutCompleted
                   (Sample.sdk (Stripe.other "ping") true)
                   Sample.session_S1 Sample.empty_world)));
    try reflexivity; try discriminate.
  intros r [].
Defined.

(** X5 -- A checkout that cannot be recorded.  When the session lacks the
    user id or the subscription id, or the provider lookup throws, or the
    INSERT throws, or plan 1 does not exist, [handleCheckoutCompleted]
    returns normally and the tables are untouched. *)
Theorem checkout_without_effect (stripe : Stripe.Api)
    (session : Stripe.CheckoutSession) (w : World) :
  truthy_str (Stripe.metadata_userId session) = false \/
  truthy_str (Stripe.subscription session) = false \/
  Stripe.subscriptions_retrieve stripe
    (str_or (Stripe.subscription session) "") = None \/
  next_fault w = true \/
  Sql.has_plan (db w) 1 = false ->
  fst (handleCheckoutCompleted stripe session w) = Returned tt
  /\ db (snd (handleCheckoutCompleted stripe session w)) = db w.
Proof.
  intros H. split; [apply handleCheckoutCompleted_returns|].
  rewrite handleCheckoutCompleted_db.
  destruct (truthy_str (Stripe.metadata_userId session)); simpl; trivial.
  destruct (truthy_str (Stripe.subscription session)); trivial.
  destruct (Stripe.subscriptions_retrieve stripe _); trivial.
  destruct (next_fault w); trivial.
  unfold Sql.insert_subscription.
  destruct (Sql.enum_status _); trivial.
  destruct (Sql.has_plan (db w) 1); trivial.
  destruct H as [H|[H|[H|[H|H]]]]; discriminate.
Qed.

(** A session without [metadata.userId]. *)
Lemma checkout_without_effect_witness :
  db (snd (handleCheckoutCompleted
             (Sample.sdk (Stripe.other "ping") true)
             (Stripe.mkSession None (Some "S1") (Some "cus_1"))
             Sample.empty_world))
  = db Sample.empty_world.
Proof.
  apply (checkout_without_effect
           (Sample.sdk (Stripe.other "ping") true)
           (Stripe.mkSession None (Some "S1") (Some "cus_1"))
           Sample.empty_world).
  now left.
Defined.

(* ================================================================= *)
(** ** What the writes of the code preserve *)

Lemma handlePaymentSucceeded_step (inv : Stripe.Invoice) (w : World) :
  db_step (db w) (db (snd (handlePaymentSucceeded inv w))).
Proof.
  unfold handlePaymentSucceeded. unfold_monad.
  destruct (next_fault w); simpl; [constructor|].
  destruct (Sql.select_id_by_ref _ _) as [|sid rest]; simpl;
    [constructor|].
  destruct (next_fault (mkWorld _ _ _ _)); simpl; [constructor|].
  destruct (Sql.insert_payment _ _ _ _ _ _ _ _) as [d'|] eqn:E; simpl;
    [|constructor].
  eapply step_insert_payment. exact E.
Qed.

Lemma handleCheckoutCompleted_step (stripe : Stripe.Api)
    (session : Stripe.CheckoutSession) (w : World) :
  db_step (db w) (db (snd (handleCheckoutCompleted stripe session w))).
Proof.
  rewrite handleCheckoutCompleted_db.
  destruct (_ && _)%bool; [|constructor].
  destruct (Stripe.subscriptions_retrieve stripe _); [|constructor].
  destruct (next_fault w); [constructor|].
  destruct (Sql.insert_subscription _ _ _ _ _ _ _ _ _ _) as [d'|] eqn:E;
    [|constructor].
  eapply step_insert_subscription. exact E.
Qed.

Lemma dispatch_step (stripe : Stripe.Api) (e : Stripe.Event) (w : World) :
  db_step (db w) (db (snd (dispatch stripe e w))).
Proof.
  destruct e; simpl.
  - apply handleCheckoutCompleted_step.
  - rewrite handleSubscriptionUpdated_db.
    destruct (next_fault w); [constructor|].
    destruct (Sql.enum_status _); constructor.
    apply with_snapshot_identity.
  - rewrite handleSubscriptionCanceled_db.
    destruct (next_fault w); constructor. apply with_status_identity.
  - apply handlePaymentSucceeded_step.
  - rewrite handlePaymentFailed_db.
    destruct (next_fault w); constructor. apply with_status_identity.
  - constructor.
Qed.

Lemma handleStripeWebhook_step (stripe : Stripe.Api)
    (secret : option string) (body signature : string) (w : World) :
  db_step (db w)
          (db (snd (handleStripeWebhook stripe secret body signature w))).
Proof.
  destruct (Stripe.webhooks_constructEvent stripe body signature
              (str_or secret "")) as [msg|e] eqn:V.
  - unfold handleStripeWebhook, constructEvent. rewrite V.
    unfold_monad. simpl. constructor.
  - rewrite (handleStripeWebhook_verified _ _ _ _ _ _ V). cbn [snd].
    apply (dispatch_step stripe e (snd (console_log _ w))).
Qed.

Lemma cancel_step (stripe : Stripe.Api) (uid : string) (w : World) :
  db_step (db w) (db (snd (cancel stripe uid w))).
Proof.
  destruct (cancel_cases stripe uid w) as [[_ [s [_ H]]]|[_ H]]; rewrite H;
    constructor. apply with_cancel_at_period_end_identity.
Qed.

Lemma reactivate_step (stripe : Stripe.Api) (uid : string) (w : World) :
  db_step (db w) (db (snd (reactivate stripe uid w))).
Proof.
  destruct (reactivate_cases stripe uid w) as [[_ [s [_ H]]]|[_ H]];
    rewrite H; constructor. apply with_cancel_at_period_end_identity.
Qed.

Lemma nth_error_app_left {A} (l l' : list A) (i : nat) (x : A) :
  nth_error l i = Some x -> nth_error (l ++ l') i = Some x.
Proof.
  intros H. rewrite nth_error_app1; trivial.
  apply nth_error_Some. congruence.
Qed.

(** Rows stay, with their identity columns; the ledger only grows; the
    plan catalogue is not written. *)
Lemma db_step_history (d d' : Db) :
  db_step d d' ->
  (forall i r, nth_error (subscriptions d) i = Some r ->
     exists r', nth_error (subscriptions d') i = Some r' /\
                identity_columns r' = identity_columns r)
  /\ (exists added, payment_history d'
                    = (payment_history d ++ added)%list /\
                    (List.length added <= 1)%nat)
  /\ subscription_plans d' = subscription_plans d.
Proof.
  intros [|p set I|uid pid cust sref st ps pe te now d1 E
          |sid intent amt cur method paid now d1 E].
  - split; [eauto|]. split; trivial.
    exists []. rewrite app_nil_r. auto.
  - split; [|split; trivial].
    + intros i r R. rewrite update_where_row, R. simpl.
      destruct (Sql.eq_param _ _ _); eauto.
    + exists []. simpl. rewrite app_nil_r. auto.
  - unfold Sql.insert_subscription in E.
    destruct (Sql.enum_status st); [|discriminate].
    destruct (Sql.has_plan d pid); [|discriminate].
    injection E as <-. simpl. split; [|split; trivial].
    + intros i r R. exists r. split; trivial.
      now apply nth_error_app_left.
    + exists []. rewrite app_nil_r. auto.
  - unfold Sql.insert_payment in E.
    destruct (Sql.has_subscription d sid); [|discriminate].
    injection E as <-. simpl. split; [eauto|]. split; trivial.
    eexists. split; [reflexivity|]. simpl. lia.
Qed.

(** X6 -- Nothing is deleted or re-keyed.  Whatever payload reaches
    [handleStripeWebhook], and whatever [cancel] or [reactivate] is asked,
    every subscription record stays at its place with its key, user,
    plan, customer reference, subscription reference, trial end and
    creation time; the payment ledger keeps all its records, gaining at
    most one; the plan catalogue is unchanged. *)
Theorem records_are_never_removed (stripe : Stripe.Api)
    (secret : option string) (body signature uid : string) (w w' : World) :
  w' = snd (handleStripeWebhook stripe secret body signature w) \/
  w' = snd (cancel stripe uid w) \/
  w' = snd (reactivate stripe uid w) ->
  (forall i r, row_at i w = Some r ->
     exists r', row_at i w' = Some r' /\
                identity_columns r' = identity_columns r)
  /\ (exists added, payment_history (db w')
                    = (payment_history (db w) ++ added)%list /\
                    (List.length added <= 1)%nat)
  /\ subscription_plans (db w') = subscription_plans (db w).
Proof.
  intros H. unfold row_at. apply db_step_history.
  destruct H as [->|[->| ->]].
  - apply handleStripeWebhook_step.
  - apply cancel_step.
  - apply reactivate_step.
Qed.

(** The record of S1 after a SubscriptionCanceled event for S1. *)
Lemma records_are_never_removed_witness :
  option_map identity_columns
    (row_at 0
       (snd (handleStripeWebhook
               (Sample.sdk (Stripe.customer_subscription_deleted
                              (Sample.snapshot_S1 StripeStatus.canceled)) true)
               None "{}" "good" (Sample.world active (Some 200) []))))
  = Some (1, "42", 1, Some "cus_1", Some "S1", None, 90).
Proof.
  destruct (records_are_never_removed
              (Sample.sdk (Stripe.customer_subscription_deleted
                             (Sample.snapshot_S1 StripeStatus.canceled)) true)
              None "{}" "good" "42"
              (Sample.world active (Some 200) [])
              (snd (handleStripeWebhook
                      (Sample.sdk (Stripe.customer_subscription_deleted
                               (Sample.snapshot_S1 StripeStatus.canceled)) true)
                      None "{}" "good"
                      (Sample.world active (Some 200) [])))
              (or_introl eq_refl))
    as [A _].
  destruct (A 0%nat (Sample.row_S1 active (Some 200)) eq_refl)
    as [r' [R I]].
  rewrite R. simpl. now rewrite I.
Defined.

Lemma NoDup_snoc {A} (l : list A) (x : A) :
  NoDup l -> ~ In x l -> NoDup (l ++ [x]).
Proof.
  induction 1 as [|h t Hh Ht IH]; simpl; intros N.
  - constructor; [tauto | constructor].
  - constructor.
    + rewrite in_app_iff. simpl. intuition congruence.
    + apply IH. tauto.
Qed.

Lemma fresh_key {A} (key : A -> Z) (l : list A) (n : Z) :
  (forall r, In r l -> key r < n) -> ~ In n (map key l).
Proof.
  intros H I. apply in_map_iff in I as [r [E R]].
  specialize (H r R). lia.
Qed.

Lemma has_subscription_update (p : option string)
    (set : SubscriptionRow -> SubscriptionRow) (d : Db) (sid : Z) :
  (forall r, identity_columns (set r) = identity_columns r) ->
  Sql.has_subscription (Sql.update_where p set d) sid
  = Sql.has_subscription d sid.
Proof.
  intros I. unfold Sql.has_subscription, Sql.update_where. simpl.
  induction (subscriptions d) as [|h t IH]; simpl; trivial.
  rewrite IH. f_equal.
  destruct (Sql.eq_param _ _ _); trivial.
  specialize (I h). unfold identity_columns in I.
  injection I as E. now rewrite E.
Qed.

Lemma db_step_well_keyed (d d' : Db) :
  db_step d d' -> well_keyed d -> well_keyed d'.
Proof.
  intros S K.
  destruct S as [|p set I|uid pid cust sref st ps pe te now d1 E
                 |sid intent amt cur method paid now d1 E];
    [exact K| | |]; destruct K as (K1 & K2 & K3 & K4 & K5 & K6).
  - assert (G : forall r,
               identity_columns
                 (if Sql.eq_param d (stripe_subscription_id r) p
                  then set r else r) = identity_columns r)
      by (intros r; now destruct (Sql.eq_param _ _ _)).
    repeat split; simpl; trivial.
    + rewrite map_map.
      erewrite map_ext; [exact K1|].
      intros r. specialize (G r). unfold identity_columns in G.
      now injection G.
    + intros r' R. apply in_map_iff in R as [r [<- R]].
      specialize (G r). unfold identity_columns in G.
      injection G as E _ _ _ _ _ _. rewrite E. now apply K2.
    + intros r' R. apply in_map_iff in R as [r [<- R]].
      specialize (G r). unfold identity_columns in G.
      injection G as _ _ E _ _ _ _. rewrite E. now apply K5.
    + intros q Q. rewrite has_subscription_update; auto.
  - unfold Sql.insert_subscription in E.
    destruct (Sql.enum_status st); [|discriminate].
    destruct (Sql.has_plan d pid) eqn:P; [|discriminate].
    injection E as <-. repeat split; simpl; trivial.
    + rewrite map_app. simpl. apply NoDup_snoc; trivial.
      now apply fresh_key.
    + intros r R. apply in_app_iff in R as [R|[<-|[]]]; simpl.
      * specialize (K2 r R). lia.
      * lia.
    + intros r R. apply in_app_iff in R as [R|[<-|[]]]; simpl.
      * now apply K5.
      * exact P.
    + intros q Q. unfold Sql.has_subscription. simpl.
      rewrite existsb_app. specialize (K6 q Q).
      unfold Sql.has_subscription in K6. now rewrite K6.
  - unfold Sql.insert_payment in E.
    destruct (Sql.has_subscription d sid) eqn:P; [|discriminate].
    injection E as <-. repeat split; simpl; trivial.
    + rewrite map_app. simpl. apply NoDup_snoc; trivial.
      now apply fresh_key.
    + intros q Q. apply in_app_iff in Q as [Q|[<-|[]]]; simpl.
      * specialize (K4 q Q). lia.
      * lia.
    + intros q Q. apply in_app_iff in Q as [Q|[<-|[]]]; simpl.
      * now apply K6.
      * exact P.
Qed.

(** X7 -- Key integrity is an invariant.  If primary keys are distinct
    and below their AUTO_INCREMENT counters, every subscription points at
    a plan and every payment at a subscription, then the same holds after
    any webhook delivery and after any [cancel] or [reactivate]. *)
Theorem key_integrity_is_kept (stripe : Stripe.Api)
    (secret : option string) (body signature uid : string) (w : World) :
  well_keyed (db w) ->
  well_keyed (db (snd (handleStripeWebhook stripe secret body signature w)))
  /\ well_keyed (db (snd (cancel stripe uid w)))
  /\ well_keyed (db (snd (reactivate stripe uid w))).
Proof.
  intros K. split; [|split].
  - apply (db_step_well_keyed (db w)); trivial.
    apply handleStripeWebhook_step.
  - apply (db_step_well_keyed (db w)); trivial. apply cancel_step.
  - apply (db_step_well_keyed (db w)); trivial. apply reactivate_step.
Qed.

Lemma sample_store_well_keyed (st : SubscriptionStatus)
    (period_end : option Z) :
  well_keyed (Sample.store st period_end).
Proof.
  repeat split; simpl.
  - constructor; [tauto | constructor].
  - intros r [<-|[]]. simpl. lia.
  - constructor.
  - tauto.
  - intros r [<-|[]]. reflexivity.
  - tauto.
Qed.

(** The payment of an invoice for S1 keeps the keys of the sample store
    in order. *)
Lemma key_integrity_is_kept_witness :
  well_keyed
    (db (snd (handleStripeWebhook
                (Sample.sdk (Stripe.invoice_payment_succeeded
                               (Sample.invoice_P1 "S1")) true)
                None "{}" "good" (Sample.world active (Some 200) [])))).
Proof.
  apply (key_integrity_is_kept
           (Sample.sdk (Stripe.invoice_payment_succeeded
                          (Sample.invoice_P1 "S1")) true)
           None "{}" "good" "42" (Sample.world active (Some 200) [])).
  apply sample_store_well_keyed.
Defined.

(* ================================================================= *)
(** ** Events for references the store does not know *)

Lemma update_where_unknown (p : option string)
    (set : SubscriptionRow -> SubscriptionRow) (d : Db) :
  unknown_ref p d -> Sql.update_where p set d = d.
Proof.
  intros U. unfold Sql.update_where.
  replace (map _ (subscriptions d)) with (subscriptions d);
    [now destruct d|].
  unfold unknown_ref in U.
  induction (subscriptions d) as [|h t IH]; simpl; trivial.
  rewrite (U h (or_introl eq_refl)). f_equal.
  apply IH. intros r R. apply U. now right.
Qed.

Lemma unknown_ref_null (d : Db) : unknown_ref None d.
Proof.
  intros r _. now destruct (stripe_subscription_id r).
Qed.

(** X8 -- Events for an unknown reference.  A SubscriptionUpdated or
    SubscriptionCanceled event whose subscription id [WHERE
    stripe_subscription_id = ?] finds on no record (under the collation
    of the table), and a PaymentFailed event whose subscription reference
    it finds on no record, leave the tables exactly as they were, and the
    handlers return normally; so does any invoice event that names no
    subscription at all. *)
Theorem events_for_unknown_reference (s : Stripe.Subscription)
    (inv : Stripe.Invoice) (w : World) :
  (unknown_ref (Some (Stripe.id s)) (db w) ->
   handleSubscriptionUpdated s w
   = (Returned tt, snd (handleSubscriptionUpdated s w)) /\
   db (snd (handleSubscriptionUpdated s w)) = db w /\
   handleSubscriptionCanceled s w
   = (Returned tt, snd (handleSubscriptionCanceled s w)) /\
   db (snd (handleSubscriptionCanceled s w)) = db w)
  /\ (unknown_ref (Stripe.invoice_subscription inv) (db w) ->
      handlePaymentFailed inv w
      = (Returned tt, snd (handlePaymentFailed inv w)) /\
      db (snd (handlePaymentFailed inv w)) = db w)
  /\ (Stripe.invoice_subscription inv = None ->
      db (snd (handlePaymentFailed inv w)) = db w /\
      db (snd (handlePaymentSucceeded inv w)) = db w).
Proof.
  split; [|split].
  - intros U. split; [|split; [|split]].
    + pose proof (handleSubscriptionUpdated_returns s w) as R.
      destruct (handleSubscriptionUpdated s w). simpl in *. now subst.
    + rewrite handleSubscriptionUpdated_db.
      destruct (next_fault w); trivial.
      destruct (Sql.enum_status _); trivial.
      now apply update_where_unknown.
    + pose proof (handleSubscriptionCanceled_returns s w) as R.
      destruct (handleSubscriptionCanceled s w). simpl in *. now subst.
    + rewrite handleSubscriptionCanceled_db, update_where_unknown
        by trivial.
      now destruct (next_fault w).
  - intros U.
    pose proof (handlePaymentFailed_returns inv w) as R.
    rewrite handlePaymentFailed_db, update_where_unknown by trivial.
    destruct (handlePaymentFailed inv w) as [o w1].
    simpl in *. subst. now destruct (next_fault w).
  - intros N. split.
    + rewrite handlePaymentFailed_db, N, update_where_unknown
        by apply unknown_ref_null.
      now destruct (next_fault w).
    + apply handlePaymentSucceeded_dangling. rewrite N.
      apply unknown_ref_null.
Qed.

(** A cancellation of S9 against a store that only knows S1. *)
Lemma events_for_unknown_reference_witness :
  db (snd (handleSubscriptionCanceled
             (Stripe.mkSubscription "S9" StripeStatus.canceled 200 300
                                    false None)
             (Sample.world active (Some 200) [])))
  = Sample.store active (Some 200).
Proof.
  destruct (events_for_unknown_reference
              (Stripe.mkSubscription "S9" StripeStatus.canceled 200 300
                                     false None)
              (Sample.invoice_P1 "S9")
              (Sample.world active (Some 200) []))
    as [A _].
  destruct A as [_ [_ [_ D]]].
  - intros r [<-|[]]. reflexivity.
  - exact D.
Defined.

(** X9 -- Unhandled event types.  A verified event whose type is none of
    the five the switch names is acknowledged with [{received: true}]; it
    issues no query, leaves the tables alone and writes two lines to the
    console, the second naming the type. *)
Theorem unhandled_event_acknowledged (stripe : Stripe.Api)
    (secret : option string) (body signature t : string) (w : World) :
  Stripe.webhooks_constructEvent stripe body signature (str_or secret "")
  = inr (Stripe.other t) ->
  handleStripeWebhook stripe secret body signature w
  = (Returned (mkReceived true),
     mkWorld (db w) (faults w) (clock w)
             (console w ++
              [console_log_entry ("Received Stripe event: " ++ t);
               console_log_entry ("Unhandled event type: " ++ t)])).
Proof.
  intros V. rewrite (handleStripeWebhook_verified _ _ _ _ _ _ V).
  simpl. unfold console_log. simpl. now rewrite <- app_assoc.
Qed.

Lemma unhandled_event_acknowledged_witness :
  fst (handleStripeWebhook (Sample.sdk (Stripe.other "charge.refunded") true)
                           None "{}" "good" Sample.empty_world)
  = Returned (mkReceived true).
Proof.
  now rewrite (unhandled_event_acknowledged
                 (Sample.sdk (Stripe.other "charge.refunded") true)
                 None "{}" "good" "charge.refunded" Sample.empty_world
                 eq_refl).
Defined.

(* ================================================================= *)
(** ** Replays and reordering *)

Lemma update_where_content (p : option string)
    (f g : SubscriptionRow -> SubscriptionRow) (d : Db) :
  (forall r, Sql.eq_param d (stripe_subscription_id r) p = true ->
             content_columns (f r) = content_columns (g r)) ->
  map content_columns (subscriptions (Sql.update_where p f d))
  = map content_columns (subscriptions (Sql.update_where p g d)).
Proof.
  intros H. unfold Sql.update_where. simpl. rewrite !map_map.
  apply map_ext_in. intros r _.
  destruct (Sql.eq_param _ _ _) eqn:E; auto.
Qed.

Lemma update_where_twice (p : option string)
    (f g : SubscriptionRow -> SubscriptionRow) (d : Db) :
  (forall r, stripe_subscription_id (f r) = stripe_subscription_id r) ->
  subscriptions (Sql.update_where p g (Sql.update_where p f d))
  = subscriptions (Sql.update_where p (fun r => g (f r)) d).
Proof.
  intros H. unfold Sql.update_where. simpl. rewrite map_map.
  apply map_ext. intros r.
  rewrite !(eq_param_server d) by reflexivity.
  destruct (Sql.eq_param d (stripe_subscription_id r) p) eqn:E.
  - now rewrite H, E.
  - now rewrite E.
Qed.

(** X10 -- The last snapshot wins.  When the status of a
    SubscriptionUpdated event [b] is one the column takes and its UPDATE
    goes through, applying [b] after another event [a] for the same
    subscription leaves, in every column but [updated_at], the records
    that applying [b] alone to the original tables leaves; what [a]
    wrote, if it wrote anything, is gone without a trace, whether or not
    [a] was the more recent snapshot.  With [a = b] this is the
    idempotence of a replayed snapshot. *)
Theorem last_snapshot_wins (a b : Stripe.Subscription)
    (st : SubscriptionStatus) (w w1 w2 : World) :
  Stripe.id a = Stripe.id b ->
  Sql.enum_status (Stripe.status b) = Some st ->
  db w1 = db (snd (handleSubscriptionUpdated a w)) ->
  db w2 = db w ->
  next_fault w1 = false ->
  next_fault w2 = false ->
  map content_columns
      (subscriptions (db (snd (handleSubscriptionUpdated b w1))))
  = map content_columns
        (subscriptions (db (snd (handleSubscriptionUpdated b w2)))).
Proof.
  intros I E D1 D2 F1 F2.
  rewrite !(handleSubscriptionUpdated_db b), F1, F2, E, D1, D2.
  rewrite handleSubscriptionUpdated_db.
  destruct (next_fault w); [now apply update_where_content|].
  destruct (Sql.enum_status (Stripe.status a));
    [|now apply update_where_content].
  rewrite I, update_where_twice by reflexivity.
  unfold Sql.update_where. cbn [subscriptions]. rewrite !map_map.
  apply map_ext. intros r. now destruct (Sql.eq_param _ _ _).
Qed.

(** An active snapshot of S1 followed by a past_due one. *)
Lemma last_snapshot_wins_witness :
  map content_columns
    (subscriptions
       (db (snd (handleSubscriptionUpdated
               (Sample.snapshot_S1 StripeStatus.past_due)
                   (snd (handleSubscriptionUpdated
                           (Sample.snapshot_S1 StripeStatus.active)
                           (Sample.world trialing (Some 200) [])))))))
  = map content_columns
      (subscriptions
         (db (snd (handleSubscriptionUpdated
                 (Sample.snapshot_S1 StripeStatus.past_due)
                     (Sample.world trialing (Some 200) []))))).
Proof.
  apply (last_snapshot_wins (Sample.snapshot_S1 StripeStatus.active)
           (Sample.snapshot_S1 StripeStatus.past_due) past_due
           (Sample.world trialing (Some 200) []));
    reflexivity.
Defined.

(** X11 -- Replayed status events.  Once a SubscriptionCanceled event, or
    a PaymentFailed event, has been applied with a successful UPDATE,
    applying the same event again changes no column of any record but
    [updated_at]. *)
Theorem status_events_are_idempotent (s : Stripe.Subscription)
    (inv : Stripe.Invoice) (w w1 : World) :
  next_fault w = false ->
  (db w1 = db (snd (handleSubscriptionCanceled s w)) ->
   map content_columns
       (subscriptions (db (snd (handleSubscriptionCanceled s w1))))
   = map content_columns (subscriptions (db w1)))
  /\ (db w1 = db (snd (handlePaymentFailed inv w)) ->
      map content_columns
          (subscriptions (db (snd (handlePaymentFailed inv w1))))
      = map content_columns (subscriptions (db w1))).
Proof.
  intros F. split; intros D.
  - rewrite handleSubscriptionCanceled_db.
    destruct (next_fault w1); trivial.
    rewrite D, handleSubscriptionCanceled_db, F.
    rewrite update_where_twice by reflexivity.
    unfold Sql.update_where. cbn [subscriptions]. rewrite !map_map.
    apply map_ext. intros r. now destruct (Sql.eq_param _ _ _).
  - rewrite handlePaymentFailed_db.
    destruct (next_fault w1); trivial.
    rewrite D, handlePaymentFailed_db, F.
    rewrite update_where_twice by reflexivity.
    unfold Sql.update_where. cbn [subscriptions]. rewrite !map_map.
    apply map_ext. intros r. now destruct (Sql.eq_param _ _ _).
Qed.

Lemma status_events_are_idempotent_witness :
  map content_columns
    (subscriptions
       (db (snd (handleSubscriptionCanceled
               (Sample.snapshot_S1 StripeStatus.canceled)
                   (snd (handleSubscriptionCanceled
                           (Sample.snapshot_S1 StripeStatus.canceled)
                           (Sample.world active (Some 200) [])))))))
  = map content_columns
      (subscriptions
         (db (snd (handleSubscriptionCanceled
                 (Sample.snapshot_S1 StripeStatus.canceled)
                     (Sample.world active (Some 200) []))))).
Proof.
  apply (status_events_are_idempotent (Sample.snapshot_S1 StripeStatus.canceled)
           (Sample.invoice_P1 "S1")
           (Sample.world active (Some 200) [])); reflexivity.
Defined.

(* ================================================================= *)
(** ** The payment record that is written *)

Lemma upper_ascii_not_lower (c : ascii) : is_lower (upper_ascii c) = false.
Proof.
  destruct c as [[] [] [] [] [] [] [] []]; reflexivity.
Qed.

Lemma toUpperCase_no_lower (s : string) : has_lower (toUpperCase s) = false.
Proof.
  induction s as [|c s IH]; simpl; trivial.
  now rewrite upper_ascii_not_lower, IH.
Qed.

Lemma str_or_nonempty (s : option string) (d : string) :
  d <> "" -> str_or s d <> "".
Proof.
  intros D. destruct s as [s|]; simpl; trivial.
  destruct (String.eqb s "") eqn:E; trivial.
  now apply String.eqb_neq.
Qed.

Lemma select_id_first (p : option string) (d : Db) (sid : Z)
    (rest : list Z) :
  Sql.select_id_by_ref p d = sid :: rest ->
  exists r, first_with_ref p d = Some r /\ sub_pk r = sid.
Proof.
  unfold Sql.select_id_by_ref, first_with_ref.
  induction (subscriptions d) as [|h t IH]; simpl; [discriminate|].
  destruct (Sql.eq_param d (stripe_subscription_id h) p); simpl; trivial.
  intros [= <- _]. eauto.
Qed.

Lemma snoc_not_self {A} (l : list A) (x : A) : l <> (l ++ [x])%list.
Proof.
  intros H. apply (f_equal (@List.length A)) in H.
  rewrite length_app in H. simpl in H. lia.
Qed.

(** X12 -- The payment record written.  Whenever
    [handlePaymentSucceeded] appends a record to the ledger, that record
    has status succeeded, carries the payment intent of the invoice, is
    attached to the first record in storage order that carries the
    invoice's subscription reference, and has a non-empty currency
    without lower-case letters and a non-empty payment method. *)
Theorem payment_record_shape (inv : Stripe.Invoice) (w : World)
    (row : PaymentRow) :
  payment_history (db (snd (handlePaymentSucceeded inv w)))
  = (payment_history (db w) ++ [row])%list ->
  pay_status row = succeeded
  /\ stripe_payment_intent_id row = Stripe.payment_intent inv
  /\ (exists r, first_with_ref (Stripe.invoice_subscription inv) (db w)
                = Some r /\ subscription_id row = sub_pk r)
  /\ Schema.currency row <> "" /\ has_lower (Schema.currency row) = false
  /\ payment_method row <> "".
Proof.
  unfold handlePaymentSucceeded. unfold_monad.
  destruct (next_fault w); simpl;
    [intros H; now apply snoc_not_self in H|].
  destruct (Sql.select_id_by_ref _ _) as [|sid rest] eqn:S; simpl;
    [intros H; now apply snoc_not_self in H|].
  destruct (next_fault (mkWorld _ _ _ _)); simpl;
    [intros H; now apply snoc_not_self in H|].
  unfold Sql.insert_payment.
  destruct (Sql.has_subscription (db w) sid); simpl;
    [|intros H; now apply snoc_not_self in H].
  intros H. apply app_inv_head in H. injection H as <-. simpl.
  split; trivial. split; trivial.
  split.
  { destruct (select_id_first _ _ _ rest S) as [r [R E]]. eauto. }
  split; [now apply str_or_nonempty|].
  split; [|now apply str_or_nonempty].
  destruct (Stripe.currency inv) as [c|]; simpl; trivial.
  destruct (String.eqb (toUpperCase c) ""); trivial.
  apply toUpperCase_no_lower.
Qed.

(** An invoice in currency brl is recorded in BRL. *)
Lemma payment_record_shape_witness :
  map Schema.currency
    (payment_history
       (db (snd (handlePaymentSucceeded (Sample.invoice_P1 "S1")
                   (Sample.world active (Some 200) [])))))
  = ["BRL"]
  /\ has_lower "BRL" = false.
Proof.
  split; [reflexivity|].
  destruct (payment_record_shape (Sample.invoice_P1 "S1")
              (Sample.world active (Some 200) [])
              (mkPay 1 1 (Some "P1") 1990 "BRL" succeeded "card" 150 150)
              eq_refl)
    as [_ [_ [_ [_ [L _]]]]].
  exact L.
Defined.

(* ================================================================= *)
(** ** Access control *)

(** X13 -- Time alone only takes access away.  On the same tables, if
    [hasActiveSubscription] answers [true] at some time, it answers
    [true] at every earlier time at which the store answers; so a user
    who is refused stays refused until a write happens. *)
Theorem entitlement_only_expires (uid : string) (w w' : World) :
  db w' = db w ->
  clock w <= clock w' ->
  next_fault w = false ->
  fst (hasActiveSubscription uid w') = Returned (JBool true) ->
  fst (hasActiveSubscription uid w) = Returned (JBool true).
Proof.
  intros D C F. rewrite !hasActiveSubscription_run, F, D.
  destruct (next_fault w'); [discriminate|].
  destruct (latest_subscription uid (db w)) as [r|]; trivial.
  destruct (includes_active_trialing (status r)); trivial.
  destruct (Schema.current_period_end r) as [t|]; trivial.
  cbn. intros [= H]. apply Z.ltb_lt in H.
  assert (G : (clock w <? t * 1000) = true) by (apply Z.ltb_lt; lia).
  now rewrite G.
Qed.

Lemma entitlement_only_expires_witness :
  fst (hasActiveSubscription "42"
         (mkWorld (Sample.store active (Some 200)) [] 100000 []))
  = Returned (JBool true).
Proof.
  apply (entitlement_only_expires "42"
           (mkWorld (Sample.store active (Some 200)) [] 100000 [])
           (Sample.world active (Some 200) []));
    [reflexivity | simpl; lia | reflexivity | reflexivity].
Defined.

(** X14 -- The premium gate.  [requirePremium] never writes the tables.
    Without a user id, or with an empty one, it throws UNAUTHORIZED
    before any query is issued.  With a user id it returns that id when
    [hasActiveSubscription] answers [true], and throws FORBIDDEN in every
    other case: a [false] answer, a [null] answer, or a store that fails
    to answer. *)
Theorem requirePremium_gate (userId : option string) (w : World) :
  db (snd (requirePremium userId w)) = db w
  /\ (truthy_str userId = false ->
      requirePremium userId w = (Thrown (TRPCError UNAUTHORIZED), w))
  /\ (forall uid, userId = Some uid -> uid <> "" ->
        (fst (hasActiveSubscription uid w) = Returned (JBool true) ->
         fst (requirePremium userId w) = Returned uid)
        /\ (fst (hasActiveSubscription uid w) <> Returned (JBool true) ->
            fst (requirePremium userId w) = Thrown (TRPCError FORBIDDEN))).
Proof.
  unfold requirePremium, bind.
  destruct userId as [u|]; simpl.
  - destruct (String.eqb u "") eqn:E; simpl.
    + split; trivial. split; trivial.
      intros uid [= <-] N. apply String.eqb_neq in N. congruence.
    + pose proof (hasActiveSubscription_db u w) as D.
      destruct (hasActiveSubscription_never_throws u w) as [v R].
      unfold ret.
      destruct (hasActiveSubscription u w) as [o w1] eqn:HA. simpl in *.
      subst o. split; [now destruct (truthy v)|].
      split; [discriminate|].
      intros uid [= <-] _. rewrite HA.
      destruct v as [[]|]; cbn; split; intros H;
        solve [reflexivity | discriminate H | now destruct H].
  - split; trivial. split; trivial. discriminate.
Qed.

(** User 42 with a trialing record passes the gate; with a past_due
    record that is paid until second 200 the gate is closed. *)
Lemma requirePremium_gate_witness :
  fst (requirePremium (Some "42") (Sample.world trialing (Some 200) []))
  = Returned "42"
  /\ fst (requirePremium (Some "42") (Sample.world past_due (Some 200) []))
     = Thrown (TRPCError FORBIDDEN).
Proof.
  split.
  - destruct (requirePremium_gate (Some "42")
                (Sample.world trialing (Some 200) [])) as [_ [_ G]].
    destruct (G "42" eq_refl) as [A _]; [discriminate|].
    now apply A.
  - destruct (requirePremium_gate (Some "42")
                (Sample.world past_due (Some 200) [])) as [_ [_ G]].
    destruct (G "42" eq_refl) as [_ B]; [discriminate|].
    now apply B.
Defined.

(** X15 -- Authentication comes first.  Called with an empty user id,
    every operation of [subscriptionRouter] throws UNAUTHORIZED and
    leaves the world as it was: no query is issued and nothing is
    logged. *)
Theorem router_requires_authentication (stripe : Stripe.Api)
    (userEmail priceId interval : string) (w : World) :
  getStatus "" w = (Thrown (TRPCError UNAUTHORIZED), w)
  /\ createCheckout stripe "" userEmail priceId interval w
     = (Thrown (TRPCError UNAUTHORIZED), w)
  /\ createPortal stripe "" w = (Thrown (TRPCError UNAUTHORIZED), w)
  /\ cancel stripe "" w = (Thrown (TRPCError UNAUTHORIZED), w)
  /\ reactivate stripe "" w = (Thrown (TRPCError UNAUTHORIZED), w).
Proof.
  repeat split.
Qed.

(* ================================================================= *)
(** ** Status views and the read-only part of the command surface *)

Lemma getSubscriptionStatus_fst (uid : string) (w : World) :
  fst (getSubscriptionStatus uid w) =
  Returned
    (if next_fault w then status_error
     else match latest_subscription uid (db w) with
          | None => status_none
          | Some r =>
              status_found
                (mkView (status r)
                        match fst (hasActiveSubscription uid
                                     (consume_fault w)) with
                        | Returned v => v
                        | Thrown _ => JBool false
                        end
                        (plan_view (Sql.plan_of (db w) r))
                        (Schema.current_period_start r)
                        (Schema.current_period_end r)
                        (Schema.cancel_at_period_end r)
                        (Schema.trial_end r)
                        (stripe_customer_id r)
                        (stripe_subscription_id r))
          end).
Proof.
  unfold getSubscriptionStatus.
  unfold db_select, try_catch, bind at 1.
  destruct (next_fault w); [reflexivity|].
  unfold Sql.select_latest_with_plan. rewrite select_latest_hd.
  destruct (latest_subscription uid (db w)) as [r|]; simpl; trivial.
  unfold bind, ret.
  destruct (hasActiveSubscription_never_throws uid (consume_fault w))
    as [v R].
  destruct (hasActiveSubscription uid (consume_fault w)) as [o w1].
  simpl in *. now subst o.
Qed.

(** X16 -- What [getSubscriptionStatus] reports.  It never writes the
    tables and never throws.  When its SELECT throws it returns the
    shape [{status: 'error', hasAccess: false}]; when the user has no
    record, the shape [{status: 'none', hasAccess: false}]; otherwise the
    columns of the user's latest record, the display columns of its plan
    (NULLs when the plan is missing), and as [hasAccess] the answer
    [hasActiveSubscription] gives on its own, second query: a store that
    fails on that query yields [hasAccess = false] next to the stored
    status. *)
Theorem getSubscriptionStatus_reports (uid : string) (w : World) :
  db (snd (getSubscriptionStatus uid w)) = db w
  /\ (next_fault w = true ->
      fst (getSubscriptionStatus uid w) = Returned status_error)
  /\ (next_fault w = false ->
      latest_subscription uid (db w) = None ->
      fst (getSubscriptionStatus uid w) = Returned status_none)
  /\ (next_fault w = false ->
      forall r, latest_subscription uid (db w) = Some r ->
      exists access,
        fst (hasActiveSubscription uid (consume_fault w)) = Returned access
        /\ (next_fault (consume_fault w) = true -> access = JBool false)
        /\ fst (getSubscriptionStatus uid w)
           = Returned
               (status_found
                  (mkView (status r) access
                          (plan_view (Sql.plan_of (db w) r))
                          (Schema.current_period_start r)
                          (Schema.current_period_end r)
                          (Schema.cancel_at_period_end r)
                          (Schema.trial_end r)
                          (stripe_customer_id r)
                          (stripe_subscription_id r)))).
Proof.
  split.
  { destruct (getSubscriptionStatus_read uid w) as [sv [k [fl [H _]]]].
    now rewrite H. }
  rewrite getSubscriptionStatus_fst.
  destruct (next_fault w).
  - split; [reflexivity|]. split; discriminate.
  - split; [discriminate|]. split.
    + intros _ L. now rewrite L.
    + intros _ r L. rewrite L.
      destruct (hasActiveSubscription_never_throws uid (consume_fault w))
        as [v R].
      exists v. rewrite R. repeat split.
      intros N.
      rewrite (hasActiveSubscription_fail_closed _ _ N) in R. congruence.
Qed.

(** User 42 is active and paid until second 200, but the second query
    fails: the view shows status active without access. *)
Lemma getSubscriptionStatus_reports_witness :
  fst (getSubscriptionStatus "42"
         (Sample.world active (Some 200) [false; true]))
  = Returned
      (status_found
         (mkView active (JBool false)
                 (mkPlanView (Some "Premium") (Some "Acesso completo")
                             (Some 1990) (Some 19900))
                 (Some 100) (Some 200) false None
                 (Some "cus_1") (Some "S1"))).
Proof.
  destruct (getSubscriptionStatus_reports "42"
              (Sample.world active (Some 200) [false; true]))
    as [_ [_ [_ G]]].
  destruct (G eq_refl (Sample.row_S1 active (Some 200)) eq_refl)
    as [access [_ [C E]]].
  rewrite E, (C eq_refl). reflexivity.
Defined.

Lemma createPortal_db (stripe : Stripe.Api) (uid : string) (w : World) :
  db (snd (createPortal stripe uid w)) = db w.
Proof.
  destruct (String.eqb uid "") eqn:E.
  - apply String.eqb_eq in E. now subst uid.
  - apply String.eqb_neq in E. unfold createPortal, bind.
    rewrite (requireAuth_authenticated uid w E).
    destruct (getSubscriptionStatus_read uid w) as [sv [k [fl [H _]]]].
    rewrite H. destruct (negb _); simpl; trivial.
    unfold createPortalSession. unfold_monad.
    now destruct (Stripe.billingPortal_sessions_create stripe _).
Qed.

Lemma createCheckout_run (stripe : Stripe.Api)
    (uid userEmail priceId interval : string) (w : World) :
  uid <> "" ->
  createCheckout stripe uid userEmail priceId interval w =
  match Stripe.checkout_sessions_create stripe userEmail priceId uid
          interval with
  | Some u => (Returned (mkUrl u), w)
  | None => (Thrown (TRPCError INTERNAL_SERVER_ERROR),
             snd (console_error "Error creating checkout session:" w))
  end.
Proof.
  intros A. unfold createCheckout, bind.
  rewrite (requireAuth_authenticated uid w A).
  unfold createCheckoutSession. unfold_monad.
  now destruct (Stripe.checkout_sessions_create stripe _ _ _ _).
Qed.

(** X17 -- The read-only part of the command surface.  [getStatus],
    [createCheckout] and [createPortal] never write the tables, whatever
    they return or throw; [createCheckout] does not even query them.  For
    an authenticated user [createCheckout] returns the URL of the
    provider session, or throws INTERNAL_SERVER_ERROR when the provider
    call fails: a subscription record comes into being only through the
    webhook. *)
Theorem command_surface_reads_only (stripe : Stripe.Api)
    (uid userEmail priceId interval : string) (w : World) :
  db (snd (getStatus uid w)) = db w
  /\ db (snd (createPortal stripe uid w)) = db w
  /\ db (snd (createCheckout stripe uid userEmail priceId interval w))
     = db w
  /\ faults (snd (createCheckout stripe uid userEmail priceId interval w))
     = faults w
  /\ (uid <> "" ->
      fst (createCheckout stripe uid userEmail priceId interval w) =
      match Stripe.checkout_sessions_create stripe userEmail priceId uid
              interval with
      | Some u => Returned (mkUrl u)
      | None => Thrown (TRPCError INTERNAL_SERVER_ERROR)
      end).
Proof.
  split; [|split; [apply createPortal_db|]].
  - destruct (String.eqb uid "") eqn:E.
    + apply String.eqb_eq in E. now subst uid.
    + apply String.eqb_neq in E. unfold getStatus, bind.
      rewrite (requireAuth_authenticated uid w E).
      destruct (getSubscriptionStatus_read uid w) as [sv [k [fl [H _]]]].
      now rewrite H.
  - destruct (String.eqb uid "") eqn:E.
    + apply String.eqb_eq in E. subst uid.
      repeat split. intros N. now destruct N.
    + apply String.eqb_neq in E.
      rewrite (createCheckout_run stripe uid userEmail priceId interval w E).
      destruct (Stripe.checkout_sessions_create stripe _ _ _ _);
        repeat split.
Qed.

Lemma command_surface_reads_only_witness :
  fst (createCheckout (Sample.sdk (Stripe.other "ping") true) "42"
                      "ana@example.com" "price_1" "monthly"
                      Sample.empty_world)
  = Returned (mkUrl "https://checkout.stripe.com/c/pay").
Proof.
  destruct (command_surface_reads_only
              (Sample.sdk (Stripe.other "ping") true) "42"
              "ana@example.com" "price_1" "monthly" Sample.empty_world)
    as [_ [_ [_ [_ C]]]].
  rewrite C; [reflexivity | discriminate].
Defined.

(* ================================================================= *)
(** ** Which events move the entitlement *)

Lemma js_and_bool (a b : bool) : js_and (JBool a) (JBool b) = JBool (a && b).
Proof. now destruct a. Qed.

(** X18 -- The snapshot decides.  After a SubscriptionUpdated event for
    the reference of a user's latest record, with a status the column
    takes, has been applied with a successful UPDATE,
    [hasActiveSubscription] answers for that user, in every later world
    holding the resulting tables whose store answers, [true] exactly when
    the status of the snapshot is active or trialing and its period end
    is still ahead -- whatever the record said before. *)
Theorem snapshot_decides_access (uid : string) (w w' : World)
    (r : SubscriptionRow) (s : Stripe.Subscription)
    (st : SubscriptionStatus) :
  next_fault w = false ->
  Sql.enum_status (Stripe.status s) = Some st ->
  latest_subscription uid (db w) = Some r ->
  stripe_subscription_id r = Some (Stripe.id s) ->
  db w' = db (snd (handleSubscriptionUpdated s w)) ->
  next_fault w' = false ->
  fst (hasActiveSubscription uid w')
  = Returned (JBool (includes_active_trialing st
                     && (clock w' <? Stripe.current_period_end s * 1000))).
Proof.
  intros F E L K D F'.
  rewrite hasActiveSubscription_answer, D by trivial.
  rewrite handleSubscriptionUpdated_db, F, E.
  rewrite latest_subscription_update by apply with_snapshot_identity.
  rewrite L. simpl. rewrite K, eq_param_refl. simpl.
  now rewrite js_and_bool.
Qed.

(** A past_due record that lapsed at second 100 is brought back by an
    active snapshot that runs until second 300. *)
Lemma snapshot_decides_access_witness :
  fst (hasActiveSubscription "42" (Sample.world past_due (Some 100) []))
  = Returned (JBool false)
  /\ fst (hasActiveSubscription "42"
            (snd (handleSubscriptionUpdated
                    (Sample.snapshot_S1 StripeStatus.active)
                    (Sample.world past_due (Some 100) []))))
     = Returned (JBool true).
Proof.
  split; [reflexivity|].
  apply (snapshot_decides_access "42"
           (Sample.world past_due (Some 100) [])
           (snd (handleSubscriptionUpdated
                   (Sample.snapshot_S1 StripeStatus.active)
                   (Sample.world past_due (Some 100) [])))
           (Sample.row_S1 past_due (Some 100))
           (Sample.snapshot_S1 StripeStatus.active) active);
    reflexivity.
Defined.

Lemma hasActiveSubscription_same_latest (u : string) (d : Db) (w' : World) :
  latest_subscription u (db w') = latest_subscription u d ->
  fst (hasActiveSubscription u w')
  = fst (hasActiveSubscription u (with_db d w')).
Proof.
  intros L. rewrite !hasActiveSubscription_run.
  change (next_fault (with_db d w')) with (next_fault w').
  change (clock (with_db d w')) with (clock w').
  change (db (with_db d w')) with d.
  now rewrite L.
Qed.

Lemma latest_subscription_other_ref (p : option string)
    (set : SubscriptionRow -> SubscriptionRow) (u : string) (d : Db) :
  (forall r, identity_columns (set r) = identity_columns r) ->
  (forall r, latest_subscription u d = Some r ->
             Sql.eq_param d (stripe_subscription_id r) p = false) ->
  latest_subscription u (Sql.update_where p set d)
  = latest_subscription u d.
Proof.
  intros I N. rewrite latest_subscription_update by trivial.
  destruct (latest_subscription u d) as [r|]; simpl; trivial.
  now rewrite N.
Qed.

(** X19 -- Events reach only their own subscription.  A
    SubscriptionUpdated, SubscriptionCanceled or PaymentFailed event whose
    reference [WHERE stripe_subscription_id = ?] does not find on a
    user's latest record (under the collation of the table) leaves the
    answer of [hasActiveSubscription] for that user as it would have been
    on the tables before the event. *)
Theorem events_reach_only_their_subscription (u : string)
    (s : Stripe.Subscription) (inv : Stripe.Invoice) (w w' : World) :
  (forall r, latest_subscription u (db w) = Some r ->
             Sql.eq_param (db w) (stripe_subscription_id r)
                          (Some (Stripe.id s)) = false) ->
  (forall r, latest_subscription u (db w) = Some r ->
             Sql.eq_param (db w) (stripe_subscription_id r)
                          (Stripe.invoice_subscription inv) = false) ->
  db w' = db (snd (handleSubscriptionUpdated s w)) \/
  db w' = db (snd (handleSubscriptionCanceled s w)) \/
  db w' = db (snd (handlePaymentFailed inv w)) ->
  fst (hasActiveSubscription u w')
  = fst (hasActiveSubscription u (with_db (db w) w')).
Proof.
  intros N1 N2 D. apply hasActiveSubscription_same_latest.
  destruct D as [D|[D|D]]; rewrite D.
  - rewrite handleSubscriptionUpdated_db.
    destruct (next_fault w); trivial.
    destruct (Sql.enum_status _); trivial.
    now apply latest_subscription_other_ref.
  - rewrite handleSubscriptionCanceled_db.
    destruct (next_fault w); trivial.
    now apply latest_subscription_other_ref.
  - rewrite handlePaymentFailed_db.
    destruct (next_fault w); trivial.
    now apply latest_subscription_other_ref.
Qed.

(** The cancellation of S9 does not concern user 42, who holds S1. *)
Lemma events_reach_only_their_subscription_witness :
  fst (hasActiveSubscription "42"
         (snd (handleSubscriptionCanceled
                 (Stripe.mkSubscription "S9" StripeStatus.canceled 200 300
                                        false None)
                 (Sample.world active (Some 200) []))))
  = Returned (JBool true).
Proof.
  rewrite (events_reach_only_their_subscription "42"
             (Stripe.mkSubscription "S9" StripeStatus.canceled 200 300
                                    false None)
             (Sample.invoice_P1 "S9")
             (Sample.world active (Some 200) [])).
  - reflexivity.
  - intros r [= <-]. reflexivity.
  - intros r [= <-]. reflexivity.
  - right. now left.
Defined.

Lemma handlePaymentSucceeded_subscriptions (inv : Stripe.Invoice)
    (w : World) :
  subscriptions (db (snd (handlePaymentSucceeded inv w)))
  = subscriptions (db w).
Proof.
  unfold handlePaymentSucceeded. unfold_monad.
  destruct (next_fault w); simpl; trivial.
  destruct (Sql.select_id_by_ref _ _) as [|sid rest]; simpl; trivial.
  destruct (next_fault (mkWorld _ _ _ _)); simpl; trivial.
  unfold Sql.insert_payment.
  now destruct (Sql.has_subscription (db w) sid).
Qed.

Lemma handlePaymentSucceeded_server (inv : Stripe.Invoice) (w : World) :
  server (db (snd (handlePaymentSucceeded inv w))) = server (db w).
Proof.
  unfold handlePaymentSucceeded. unfold_monad.
  destruct (next_fault w); simpl; trivial.
  destruct (Sql.select_id_by_ref _ _) as [|sid rest]; simpl; trivial.
  destruct (next_fault (mkWorld _ _ _ _)); simpl; trivial.
  unfold Sql.insert_payment.
  now destruct (Sql.has_subscription (db w) sid).
Qed.

(** X20 -- A payment does not restore access.  [handlePaymentSucceeded]
    writes no subscription record: the subscriptions table is the same
    afterwards, and so is every answer of [hasActiveSubscription]; a
    record set to past_due by a failed payment stays past_due when the
    payment later succeeds, until a SubscriptionUpdated event arrives. *)
Theorem payment_does_not_restore_access (u : string) (inv : Stripe.Invoice)
    (w w' : World) :
  db w' = db (snd (handlePaymentSucceeded inv w)) ->
  subscriptions (db w') = subscriptions (db w)
  /\ fst (hasActiveSubscription u w')
     = fst (hasActiveSubscription u (with_db (db w) w')).
Proof.
  intros D.
  assert (S : subscriptions (db w') = subscriptions (db w))
    by (rewrite D; apply handlePaymentSucceeded_subscriptions).
  assert (V : server (db w') = server (db w))
    by (rewrite D; apply handlePaymentSucceeded_server).
  split; trivial.
  apply hasActiveSubscription_same_latest.
  unfold latest_subscription, Sql.select_latest, Sql.eq_text.
  now rewrite S, V.
Qed.

(** A failed payment for S1 followed by the successful one: user 42, paid
    until second 200, is still refused at second 150. *)
Lemma payment_does_not_restore_access_witness :
  fst (hasActiveSubscription "42"
         (snd (handlePaymentSucceeded (Sample.invoice_P1 "S1")
                 (snd (handlePaymentFailed (Sample.invoice_P1 "S1")
                         (Sample.world active (Some 200) []))))))
  = Returned (JBool false).
Proof.
  destruct (payment_does_not_restore_access "42" (Sample.invoice_P1 "S1")
              (snd (handlePaymentFailed (Sample.invoice_P1 "S1")
                      (Sample.world active (Some 200) [])))
              (snd (handlePaymentSucceeded (Sample.invoice_P1 "S1")
                      (snd (handlePaymentFailed (Sample.invoice_P1 "S1")
                              (Sample.world active (Some 200) [])))))
              eq_refl)
    as [_ E].
  rewrite E. reflexivity.
Defined.
